(** * khoma.py: face registration and recognition service

    A shallow embedding of [khoma.py] (a Flask application on top of the
    [face_recognition] library) and the properties of its store, its
    matcher and its request handlers.

    Layout:
    - [Py]: the fragment of Python values, exceptions and built-ins the
      handlers use;
    - [Numpy]: [np.argmin] on a vector of float64;
    - [Runtime]: the libraries behind the handlers (PIL, base64,
      face_recognition), as a class;
    - the handlers of [khoma.py], one definition per source function;
    - [TestDouble]: a small runtime on which the handlers can be run;
    - [FloatOrder], [NumpyFacts]: the order facts about IEEE binary64
      comparison that the matcher relies on, and [np.argmin] from them;
    - the properties of the matcher, the store and the handlers, and
      [Examples] of them on the small runtime. *)

From Stdlib Require Import ZArith List String Ascii Bool Lia Floats.
From stdpp Require Import base list.
Import ListNotations.

Set Default Proof Using "Type".
Set Warnings "-inexact-float,-register-all".

Open Scope Z_scope.
Open Scope string_scope.

(** ** The fragment of Python the handlers use *)
Module Py.

(** JSON data as Python holds it: what [request.json] and [request.form]
    deliver, what the store keeps as metadata, and what [json.dumps]
    accepts. *)
Inductive value : Type :=
| None_
| Bool (b : bool)
| Int (z : Z)
| Float (f : float)
| Str (s : string)
| List_ (l : list value)
| Dict (d : list (string * value)).

(** What a view hands to [jsonify]: JSON data, or a dict or a list built
    around some.  [NpInt64] is a numpy integer scalar, the type of
    [np.argmin]'s result; it is not a Python [int]. *)
Inductive payload : Type :=
| Json (v : value)
| NpInt64 (z : Z)
| PList (l : list payload)
| PDict (d : list (string * payload)).

Inductive exn_class : Type :=
| TypeError | AttributeError | KeyError | IndexError
| ValueError | OverflowError | HTTPException | LibraryError.

(** An exception: its class and [str(e)]. *)
Record exn : Type := Exn { exn_class_of : exn_class; exn_str : string }.

(** [type(v).__name__] *)
Definition type_name (v : value) : string :=
  match v with
  | None_ => "NoneType" | Bool _ => "bool" | Int _ => "int"
  | Float _ => "float" | Str _ => "str" | List_ _ => "list"
  | Dict _ => "dict"
  end.

(** [bool(v)] *)
Definition truthy (v : value) : bool :=
  match v with
  | None_ => false
  | Bool b => b
  | Int z => negb (Z.eqb z 0)
  | Float f => negb (f =? 0)%float
  | Str s => negb (String.eqb s "")
  | List_ l => negb (Nat.eqb (length l) 0)
  | Dict d => negb (Nat.eqb (length d) 0)
  end.

(** Lookup of a key in a dict or a MultiDict: the first binding. *)
Fixpoint assoc {A : Type} (k : string) (d : list (string * A)) : option A :=
  match d with
  | [] => None
  | (k', v) :: rest => if String.eqb k' k then Some v else assoc k rest
  end.

Definition has_key {A : Type} (k : string) (d : list (string * A)) : bool :=
  match assoc k d with Some _ => true | None => false end.

(** The value a dict holds under a key, if [v] is a dict holding one. *)
Definition field (k : string) (v : value) : option value :=
  match v with
  | Dict d => assoc k d
  | _ => None
  end.

(** [sub in s] for strings. *)
Definition str_contains (sub s : string) : bool :=
  match String.index 0 sub s with Some _ => true | None => false end.

(** [k in v] for a string [k]. *)
Definition contains (k : string) (v : value) : exn + bool :=
  match v with
  | Dict d => inr (has_key k d)
  | List_ l =>
      inr (existsb (fun x => match x with
                             | Str s => String.eqb s k
                             | _ => false
                             end) l)
  | Str s => inr (str_contains k s)
  | _ => inl (Exn TypeError
                ("argument of type '" ++ type_name v ++ "' is not iterable"))
  end.

(** [v[k]] for a string [k]. *)
Definition getitem (k : string) (v : value) : exn + value :=
  match v with
  | Dict d =>
      match assoc k d with
      | Some x => inr x
      | None => inl (Exn KeyError ("'" ++ k ++ "'"))
      end
  | List_ _ =>
      inl (Exn TypeError "list indices must be integers or slices, not str")
  | Str _ => inl (Exn TypeError "string indices must be integers, not 'str'")
  | _ => inl (Exn TypeError
                ("'" ++ type_name v ++ "' object is not subscriptable"))
  end.

(** [v.get(k)] *)
Definition get (k : string) (v : value) : exn + value :=
  match v with
  | Dict d => inr (match assoc k d with Some x => x | None => None_ end)
  | _ => inl (Exn AttributeError
                ("'" ++ type_name v ++ "' object has no attribute 'get'"))
  end.

(** [l[i]] on a list, for [i >= 0]. *)
Definition index {A : Type} (l : list A) (i : nat) : exn + A :=
  match l !! i with
  | Some x => inr x
  | None => inl (Exn IndexError "list index out of range")
  end.

(** [s.split(sep)] for a one-character separator: never empty. *)
Fixpoint split (sep : ascii) (s : string) : list string :=
  match s with
  | EmptyString => [EmptyString]
  | String c rest =>
      if Ascii.eqb c sep then EmptyString :: split sep rest
      else match split sep rest with
           | h :: t => String c h :: t
           | [] => [String c EmptyString]
           end
  end.

(** [c in s] for a one-character string [c]. *)
Fixpoint has_char (c : ascii) (s : string) : bool :=
  match s with
  | EmptyString => false
  | String c' rest => Ascii.eqb c' c || has_char c rest
  end.

(** [int(f)] for a float: truncation towards zero, an error on NaN and
    on the infinities. *)
Definition int_of_float (f : float) : exn + Z :=
  match Prim2SF f with
  | S754_nan => inl (Exn ValueError "cannot convert float NaN to integer")
  | S754_infinity _ =>
      inl (Exn OverflowError "cannot convert float infinity to integer")
  | S754_zero _ => inr 0
  | S754_finite s m e =>
      let a := Z.shiftl (Z.pos m) e in inr (if s then - a else a)
  end.

(** The value a payload dict holds under a key. *)
Definition pfield (k : string) (p : payload) : option payload :=
  match p with
  | PDict d => assoc k d
  | Json (Dict d) => option_map Json (assoc k d)
  | _ => None
  end.

(** The JSON document [json.dumps] writes for a payload, with Flask's
    default hook: there is none when a numpy scalar is met ("Object of
    type int64 is not JSON serializable"). *)
Fixpoint to_json (p : payload) : option value :=
  match p with
  | Json v => Some v
  | NpInt64 _ => None
  | PList l =>
      option_map List_
        ((fix elements (l : list payload) : option (list value) :=
            match l with
            | [] => Some []
            | x :: rest =>
                match to_json x, elements rest with
                | Some y, Some ys => Some (y :: ys)
                | _, _ => None
                end
            end) l)
  | PDict d =>
      option_map Dict
        ((fix items (d : list (string * payload))
            : option (list (string * value)) :=
            match d with
            | [] => Some []
            | (k, x) :: rest =>
                match to_json x, items rest with
                | Some y, Some ys => Some ((k, y) :: ys)
                | _, _ => None
                end
            end) d)
  end.

End Py.

(** ** numpy *)
Module Numpy.

(** [np.argmin] on a one-dimensional float64 array, as numpy's
    [DOUBLE_argmin] scans it: the running minimum [mp] is replaced when
    [not (ip[i] >= mp)], and a NaN, once met, is the minimum and ends the
    scan.  Hence: the index of the first NaN if there is one, else the
    index of the first occurrence of the least element. *)
Fixpoint argmin_scan (mp : float) (min_ind i : nat) (ip : list float) : nat :=
  match ip with
  | [] => min_ind
  | x :: rest =>
      if negb (mp <=? x)%float
      then if is_nan x then i else argmin_scan x i (S i) rest
      else argmin_scan mp min_ind (S i) rest
  end.

Definition argmin (a : list float) : Py.exn + nat :=
  match a with
  | [] => inl (Py.Exn Py.ValueError
                 "attempt to get argmin of an empty sequence")
  | mp :: rest => inr (if is_nan mp then 0%nat else argmin_scan mp 0 1 rest)
  end.

(** Whether some element of the array is NaN, as a test and as a
    property of every element. *)
Definition has_nan (a : list float) : bool := existsb is_nan a.

Definition no_nan (a : list float) : Prop :=
  Forall (fun x => is_nan x = false) a.

(** [is_nan] read on the specification of binary64. *)
Definition sf_number (x : spec_float) : bool :=
  match x with S754_nan => false | _ => true end.

End Numpy.

(** ** The libraries behind the handlers

    [khoma.py] delegates image decoding to PIL and [base64], detection and
    embedding to [face_recognition], and the distance to numpy.  Their
    results are taken as given; nothing below depends on what they
    compute. *)
Class Runtime : Type := {
  (** a face encoding: a row of 128 float64 *)
  Encoding : Type;
  (** the pixel array of an image, and a face location in it *)
  ImageArray : Type;
  Box : Type;
  face_locations : ImageArray -> list Box;
  face_encodings : ImageArray -> list Box -> list Encoding;
  (** [np.linalg.norm(known - query)] for one row [known] *)
  row_norm : Encoding -> Encoding -> float;
  (** an uploaded file of [request.files], a PIL image *)
  FileStorage : Type;
  PILImage : Type;
  b64decode : string -> Py.exn + list Byte.byte;
  Image_open : list Byte.byte -> Py.exn + PILImage;
  Image_open_upload : FileStorage -> Py.exn + PILImage;
  Image_mode : PILImage -> string;
  Image_convert_RGB : PILImage -> PILImage;
  np_array : PILImage -> ImageArray;
  (** [int(s)] for a string, and [format(v)] as an f-string renders it *)
  int_of_str : string -> Py.exn + Z;
  format_value : Py.value -> string
}.

(** Results of fallible pure code: an exception or a value. *)
Definition Result (A : Type) : Type := Py.exn + A.

Definition rbind {A B : Type} (m : Result A) (k : A -> Result B) : Result B :=
  match m with
  | inl e => inl e
  | inr a => k a
  end.

Declare Scope result_scope.
Delimit Scope result_scope with R.
Notation "x <- m ;; k" := (rbind m (fun x => k))
  (at level 100, m at next level, k at level 200, right associativity)
  : result_scope.

(** [int(v)] *)
Definition py_int `{Runtime} (v : Py.value) : Result Z :=
  match v with
  | Py.Bool b => inr (Z.b2z b)
  | Py.Int z => inr z
  | Py.Float f => Py.int_of_float f
  | Py.Str s => int_of_str s
  | _ => inl (Py.Exn Py.TypeError
                ("int() argument must be a string, a bytes-like object or "
                 ++ "a real number, not '" ++ Py.type_name v ++ "'"))
  end.

(** ** face_recognition/api.py *)
Module FaceRecognition.
Section Api.
Context `{Runtime}.

Definition face_distance (encodings : list Encoding)
    (face_to_compare : Encoding) : list float :=
  map (fun known => row_norm known face_to_compare) encodings.

Definition compare_faces (known_face_encodings : list Encoding)
    (face_encoding_to_check : Encoding) (tolerance : float) : list bool :=
  map (fun d => (d <=? tolerance)%float)
      (face_distance known_face_encodings face_encoding_to_check).
End Api.
End FaceRecognition.

(** ** Control flow of a view function

    A view function runs against the storage and either goes on with a
    value, leaves through [return jsonify(...), status], or raises. *)
Record response : Type := Response { body : Py.value; status : Z }.

Inductive outcome (A : Type) : Type :=
| Normal (a : A)
| Returned (r : response)
| Raised (e : Py.exn).
Arguments Normal {A} a.
Arguments Returned {A} r.
Arguments Raised {A} e.

(** ** khoma.py *)
Section App.
Context `{Runtime}.

(** *** The store: the dict pickled in [STORAGE_FILE] *)

(** One entry of [data['metadata']].  [register_face] writes all four
    keys; [list_people] reads [registered_at] with a default, so that
    one may be absent. *)
Record Metadata : Type := {
  name : Py.value;
  age : Z;
  gender : Py.value;
  registered_at : option string
}.

Record Data : Type := {
  encodings : list Encoding;
  metadata : list Metadata
}.

(** [face_data.pkl]: absent, or holding a pickled [Data]. *)
Definition Storage : Type := option Data.

Definition metadata_value (m : Metadata) : Py.value :=
  Py.Dict ([("name", name m); ("age", Py.Int (age m)); ("gender", gender m)]
           ++ match registered_at m with
              | Some t => [("registered_at", Py.Str t)]
              | None => []
              end)%list.

Definition M (A : Type) : Type := Storage -> outcome A * Storage.

Definition ret {A : Type} (a : A) : M A := fun st => (Normal a, st).

Definition bind {A B : Type} (m : M A) (k : A -> M B) : M B :=
  fun st =>
    match m st with
    | (Normal a, st') => k a st'
    | (Returned r, st') => (Returned r, st')
    | (Raised e, st') => (Raised e, st')
    end.

Definition raise {A : Type} (e : Py.exn) : M A := fun st => (Raised e, st).

Definition lift {A : Type} (r : Result A) : M A :=
  match r with
  | inl e => raise e
  | inr a => ret a
  end.

(** [jsonify(p)]: the JSON document of the response body; raises on a
    payload [json.dumps] rejects. *)
Definition jsonify (p : Py.payload) : Result Py.value :=
  match Py.to_json p with
  | Some v => inr v
  | None => inl (Py.Exn Py.TypeError
                   "Object of type int64 is not JSON serializable")
  end.

(** [return jsonify(p), status] *)
Definition return_ {A : Type} (p : Py.payload) (code : Z) : M A :=
  fun st =>
    match jsonify p with
    | inr b => (Returned (Response b code), st)
    | inl e => (Raised e, st)
    end.

(** A view function's body: every path ends in [return] or raises. *)
Definition view : Type := M Empty_set.

(** [try: body] with
    [except Exception as e: return jsonify({'error': str(e)}), 500] *)
Definition try_except (b : view) : Storage -> response * Storage :=
  fun st =>
    match b st with
    | (Normal a, _) => match a with end
    | (Returned r, st') => (r, st')
    | (Raised e, st') =>
        (Response (Py.Dict [("error", Py.Str (Py.exn_str e))]) 500, st')
    end.

Declare Scope view_scope.
Delimit Scope view_scope with V.
Notation "x <- m ;; k" := (bind m (fun x => k))
  (at level 100, m at next level, k at level 200, right associativity)
  : view_scope.

(** [{'error': msg}] *)
Definition error (msg : string) : Py.value := Py.Dict [("error", Py.Str msg)].

(** *** load_data, save_data *)

Definition empty_data : Data := {| encodings := []; metadata := [] |}.

(** The file is taken to hold what [save_data] wrote. *)
Definition load_data : M Data :=
  fun st =>
    match st with
    | Some data => (Normal data, st)
    | None => (Normal empty_data, st)
    end.

Definition save_data (data : Data) : M unit :=
  fun _ => (Normal tt, Some data).

(** *** decode_image *)

(** What a view passes to [decode_image]: [request.files['image']] or
    [request.json['image']]. *)
Inductive image_source : Type :=
| Upload (f : FileStorage)
| JsonField (v : Py.value).

(** Lines 35-36: the string handed to [base64.b64decode]. *)
Definition base64_payload (image_data : string) : Result string :=
  if Py.has_char "," image_data
  then Py.index (Py.split "," image_data) 1
  else inr image_data.

Definition decode_image (image_data : image_source) : Result ImageArray :=
  let attempt : Result ImageArray :=
    (image <- match image_data with
              | JsonField (Py.Str s) =>
                  (payload <- base64_payload s ;;
                   image_bytes <- b64decode payload ;;
                   Image_open image_bytes)%R
              | JsonField v =>
                  (* Image.open on a value with neither seek nor read *)
                  inl (Py.Exn Py.AttributeError
                         ("'" ++ Py.type_name v
                          ++ "' object has no attribute 'read'"))
              | Upload f => Image_open_upload f
              end ;;
     let image :=
       if negb (String.eqb (Image_mode image) "RGB")
       then Image_convert_RGB image else image in
     inr (np_array image))%R in
  match attempt with
  | inr a => inr a
  | inl e =>
      inl (Py.Exn Py.ValueError ("Failed to decode image: " ++ Py.exn_str e))
  end.

(** *** The request *)

(** [request.json] raises when the body is not JSON. *)
Record request : Type := {
  files : list (string * FileStorage);
  form : list (string * string);
  json : Result Py.value
}.

(** The "Get image" block shared by [register_face] and
    [recognize_face]. *)
Definition request_image (req : request) : M image_source :=
  match Py.assoc "image" (files req) with
  | Some f => ret (Upload f)
  | None =>
      (j <- lift (json req) ;;
       present <- lift (Py.contains "image" j) ;;
       if present : bool
       then v <- lift (Py.getitem "image" j) ;; ret (JsonField v)
       else return_ (Py.Json (error "No image provided")) 400)%V
  end.

(** [request.form.get(k) or request.json.get(k)] *)
Definition request_field (req : request) (k : string) : M Py.value :=
  let from_form :=
    match Py.assoc k (form req) with
    | Some s => Py.Str s
    | None => Py.None_
    end in
  if Py.truthy from_form then ret from_form
  else (j <- lift (json req) ;; lift (Py.get k j))%V.

(** *** register_face *)

Definition register_face (now : string) (req : request) : view :=
  ((* Get image *)
   image_data <- request_image req ;;
   (* Get metadata *)
   name <- request_field req "name" ;;
   age <- request_field req "age" ;;
   gender <- request_field req "gender" ;;
   if negb (forallb Py.truthy [name; age; gender])
   then return_ (Py.Json (error "Name, age, and gender are required")) 400
   else
   (* Decode image *)
   image_array <- lift (decode_image image_data) ;;
   (* Find face encodings *)
   let locations := face_locations image_array in
   let found := face_encodings image_array locations in
   if Nat.eqb (length found) 0
   then return_ (Py.Json (error "No face detected in image")) 400
   else
   if Nat.ltb 1 (length found)
   then return_ (Py.Json (error ("Multiple faces detected. "
                                 ++ "Please provide image with single face")))
          400
   else
   (* Load existing data *)
   data <- load_data ;;
   (* Add new face encoding and metadata *)
   face_encoding <- lift (Py.index found 0) ;;
   age_int <- lift (py_int age) ;;
   let entry := {| name := name; age := age_int; gender := gender;
                   registered_at := Some now |} in
   let data := {| encodings := encodings data ++ [face_encoding];
                  metadata := metadata data ++ [entry] |} in
   (* Save data *)
   _ <- save_data data ;;
   return_ (Py.Json
              (Py.Dict
                 [("success", Py.Bool true);
                  ("message",
                    Py.Str ("Successfully registered " ++ format_value name));
                  ("person_id",
                    Py.Int (Z.of_nat (length (encodings data)) - 1));
                  ("metadata", metadata_value entry)])) 200)%V.

(** *** recognize_face *)

Definition recognized (entry : Metadata) (confidence : float)
    (best_match_index : nat) : Py.payload :=
  Py.PDict [("recognized", Py.Json (Py.Bool true));
            ("name", Py.Json (name entry));
            ("age", Py.Json (Py.Int (age entry)));
            ("gender", Py.Json (gender entry));
            ("confidence", Py.Json (Py.Float confidence));
            ("person_id", Py.NpInt64 (Z.of_nat best_match_index))].

Definition not_recognized : Py.payload :=
  Py.PDict [("recognized", Py.Json (Py.Bool false));
            ("message", Py.Json (Py.Str "Face not recognized"))].

(** The body of the loop "Check each detected face" (lines 159-182):
    the entry appended to [results] for one detected face.  The source
    passes [tolerance=0.6]. *)
Definition match_face (tolerance : float) (data : Data)
    (face_encoding : Encoding) : Result Py.payload :=
  (* Compare with stored encodings *)
  let matches :=
    FaceRecognition.compare_faces (encodings data) face_encoding tolerance in
  let face_distances :=
    FaceRecognition.face_distance (encodings data) face_encoding in
  if existsb (fun m : bool => m) matches
  then
    ((* Get best match *)
     best_match_index <- Numpy.argmin face_distances ;;
     is_match <- Py.index matches best_match_index ;;
     if is_match : bool
     then
       entry <- Py.index (metadata data) best_match_index ;;
       distance <- Py.index face_distances best_match_index ;;
       let confidence := (1 - distance)%float in
       inr (recognized entry confidence best_match_index)
     else inr not_recognized)%R
  else inr not_recognized.

(** The literal of line 160. *)
Definition TOLERANCE : float := 0.6%float.

(** [for x in xs: results.append(f(x))], stopping at the first raise. *)
Fixpoint for_each {A B : Type} (f : A -> Result B) (xs : list A)
    : Result (list B) :=
  match xs with
  | [] => inr []
  | x :: rest =>
      (y <- f x ;; ys <- for_each f rest ;; inr (y :: ys))%R
  end.

Definition recognize_face (req : request) : view :=
  ((* Get image *)
   image_data <- request_image req ;;
   (* Decode image *)
   image_array <- lift (decode_image image_data) ;;
   (* Find face encodings *)
   let locations := face_locations image_array in
   let found := face_encodings image_array locations in
   if Nat.eqb (length found) 0
   then return_ (Py.Json (error "No face detected in image")) 400
   else
   (* Load stored data *)
   data <- load_data ;;
   if Nat.eqb (length (encodings data)) 0
   then return_ (Py.Json (error "No registered faces in database")) 404
   else
   (* Check each detected face *)
   results <- lift (for_each (match_face TOLERANCE data) found) ;;
   match results with
   | [result] => return_ result 200
   | _ => return_ (Py.PDict [("faces", Py.PList results)]) 200
   end)%V.

(** *** list_people *)

Definition person (i : nat) (entry : Metadata) : Py.value :=
  Py.Dict [("person_id", Py.Int (Z.of_nat i));
           ("name", name entry);
           ("age", Py.Int (age entry));
           ("gender", gender entry);
           ("registered_at",
             Py.Str (match registered_at entry with
                     | Some t => t
                     | None => "Unknown"
                     end))].

Definition list_people : view :=
  (data <- load_data ;;
   let people := imap person (metadata data) in
   return_ (Py.Json
              (Py.Dict [("count", Py.Int (Z.of_nat (length people)));
                        ("people", Py.List_ people)])) 200)%V.

(** *** delete_person *)

(** [del l[i]] for [i >= 0] *)
Definition py_del {A : Type} (l : list A) (i : nat) : Result (list A) :=
  if Nat.ltb i (length l) then inr (delete i l)
  else inl (Py.Exn Py.IndexError "list assignment index out of range").

Definition delete_person (person_id : Z) : view :=
  (data <- load_data ;;
   if (person_id <? 0)%Z
      || (person_id >=? Z.of_nat (length (encodings data)))%Z
   then return_ (Py.Json (error "Invalid person_id")) 404
   else
   let i := Z.to_nat person_id in
   deleted_metadata <- lift (Py.index (metadata data) i) ;;
   (* Remove from lists *)
   remaining_encodings <- lift (py_del (encodings data) i) ;;
   remaining_metadata <- lift (py_del (metadata data) i) ;;
   let data := {| encodings := remaining_encodings;
                  metadata := remaining_metadata |} in
   (* Save updated data *)
   _ <- save_data data ;;
   return_ (Py.Json
              (Py.Dict
                 [("success", Py.Bool true);
                  ("message",
                    Py.Str ("Deleted "
                            ++ format_value (name deleted_metadata)));
                  ("deleted", metadata_value deleted_metadata)])) 200)%V.

(** *** clear_database, health *)

Definition clear_database : view :=
  (let data := empty_data in
   _ <- save_data data ;;
   return_ (Py.Json
              (Py.Dict [("success", Py.Bool true);
                        ("message", Py.Str "Database cleared")])) 200)%V.

(** [health] has no [try]; its payload is two strings. *)
Definition health (now : string) : response :=
  Response (Py.Dict [("status", Py.Str "healthy");
                     ("timestamp", Py.Str now)]) 200.

(** *** The routes

    One call of the application: the route hit and its arguments.  [now]
    is the reading of the clock, [datetime.now().isoformat()].  Flask's
    [<int:person_id>] converter only lets non-negative integers through;
    [delete_person] is modelled on every integer, as its own guard is
    written. *)
Inductive call : Type :=
| GET_health
| POST_register (req : request)
| POST_recognize (req : request)
| GET_list
| DELETE_delete (person_id : Z)
| POST_clear.

Definition serve (now : string) (c : call) : Storage -> response * Storage :=
  match c with
  | GET_health => fun st => (health now, st)
  | POST_register req => try_except (register_face now req)
  | POST_recognize req => try_except (recognize_face req)
  | GET_list => try_except list_people
  | DELETE_delete person_id => try_except (delete_person person_id)
  | POST_clear => try_except clear_database
  end.

(** *** Derived notions used to state the properties *)

(** What [load_data] returns on a storage. *)
Definition stored (st : Storage) : Data :=
  match st with
  | Some data => data
  | None => empty_data
  end.

(** The two lists of the store have the same length. *)
Definition aligned (data : Data) : Prop :=
  length (encodings data) = length (metadata data).

(** A sequence of calls, each with the clock reading it sees. *)
Fixpoint run (calls : list (string * call)) (st : Storage) : Storage :=
  match calls with
  | [] => st
  | (now, c) :: rest => run rest (snd (serve now c st))
  end.

(** The request carries an image and truthy [name], [age] and [gender]:
    the "Get image" and "Get metadata" blocks of [register_face] go
    through with these values. *)
Definition supplies (req : request) (st : Storage)
    (image_data : image_source) (name age gender : Py.value) : Prop :=
  request_image req st = (Normal image_data, st)
  /\ request_field req "name" st = (Normal name, st)
  /\ request_field req "age" st = (Normal age, st)
  /\ request_field req "gender" st = (Normal gender, st)
  /\ forallb Py.truthy [name; age; gender] = true.

(** Lines 35-36 as the specification words them: the input without its
    prefix up to and including the first comma. *)
Fixpoint after_first_comma (s : string) : string :=
  match s with
  | EmptyString => EmptyString
  | String c rest => if Ascii.eqb c "," then rest else after_first_comma rest
  end.

(** The routes whose view never calls [save_data]. *)
Definition read_only (c : call) : bool :=
  match c with
  | GET_health | POST_recognize _ | GET_list => true
  | POST_register _ | DELETE_delete _ | POST_clear => false
  end.

(** The same request with another JSON body. *)
Definition with_json (req : request) (j : Result Py.value) : request :=
  {| files := files req; form := form req; json := j |}.

(** [request.form.get(k)] *)
Definition form_get (req : request) (k : string) : Py.value :=
  match Py.assoc k (form req) with
  | Some s => Py.Str s
  | None => Py.None_
  end.

(** The JSON document of the entry [not_recognized]. *)
Definition not_recognized_json : Py.value :=
  Py.Dict [("recognized", Py.Bool false);
           ("message", Py.Str "Face not recognized")].

End App.

(** ** A runtime to run the handlers on

    A small stand-in for the libraries, so that the definitions above can
    be evaluated: an encoding is a short vector of floats, the distance is
    the Euclidean norm of the difference summed left to right (on rows of
    one element, [sqrt ((a - b) * (a - b))], which is numpy's value too),
    and a picture is given by the bytes of its payload, each byte being
    one face whose encoding is the one-element vector of that byte's
    value. *)
Module TestDouble.

Definition euclid (a b : list float) : float :=
  sqrt (fold_left (fun acc p => acc + (fst p - snd p) * (fst p - snd p))
                  (combine a b) 0)%float.

Definition float_of_byte (b : Byte.byte) : float :=
  PrimFloat.of_uint63 (Uint63.of_Z (Z.of_N (Byte.to_N b))).

Definition digit (c : ascii) : option Z :=
  let n := Z.of_nat (nat_of_ascii c) in
  if (48 <=? n)%Z && (n <=? 57)%Z then Some (n - 48) else None.

Fixpoint digits (acc : Z) (s : string) : option Z :=
  match s with
  | EmptyString => Some acc
  | String c rest =>
      match digit c with
      | Some d => digits (10 * acc + d) rest
      | None => None
      end
  end.

Definition literal (s : string) : option Z :=
  match s with
  | EmptyString => None
  | String "-" EmptyString => None
  | String "-" rest => option_map Z.opp (digits 0 rest)
  | _ => digits 0 s
  end.

(** Plain decimal literals only. *)
Definition parse_int (s : string) : Result Z :=
  match literal s with
  | Some z => inr z
  | None => inl (Py.Exn Py.ValueError
                   ("invalid literal for int() with base 10: '" ++ s ++ "'"))
  end.

#[export] Instance runtime : Runtime := {|
  Encoding := list float;
  ImageArray := list (list float);
  Box := nat;
  face_locations arr := seq 0 (length arr);
  face_encodings arr boxes := flat_map (fun i => option_list (arr !! i)) boxes;
  row_norm := euclid;
  FileStorage := list Byte.byte;
  PILImage := list Byte.byte;
  b64decode s := inr (list_byte_of_string s);
  Image_open image_bytes := inr image_bytes;
  Image_open_upload f := inr f;
  Image_mode _ := "RGB";
  Image_convert_RGB image := image;
  np_array image := map (fun b => [float_of_byte b]) image;
  int_of_str := parse_int;
  format_value v := match v with Py.Str s => s | _ => Py.type_name v end
|}.

End TestDouble.

(** * Properties *)

(** ** Order facts about binary64 comparison

    numpy's float64 is IEEE 754 binary64, which is what Rocq's primitive
    [float] is.  [<=?] is the IEEE comparison: it is false as soon as one
    side is NaN, and a total preorder on the other values. *)
Module FloatOrder.

Ltac cmp_red := cbv beta iota delta [CompOpp].
Ltac cmp_red_in H := cbv beta iota delta [CompOpp] in H.

Ltac cmp_cases :=
  repeat match goal with
    | |- context [Pos.compare_cont Eq ?a ?b] =>
        change (Pos.compare_cont Eq a b) with (Pos.compare a b)
    | H : context [Pos.compare_cont Eq ?a ?b] |- _ =>
        change (Pos.compare_cont Eq a b) with (Pos.compare a b) in H
    | |- context [Z.compare ?a ?b] =>
        let H := fresh "Hc" in
        destruct (Z.compare_spec a b) as [H | H | H]; cmp_red
    | |- context [Pos.compare ?a ?b] =>
        let H := fresh "Hc" in
        destruct (Pos.compare_spec a b) as [H | H | H]; cmp_red
    | H : context [Z.compare ?a ?b] |- _ =>
        let H' := fresh "Hc" in
        destruct (Z.compare_spec a b) as [H' | H' | H']; cmp_red_in H
    | H : context [Pos.compare ?a ?b] |- _ =>
        let H' := fresh "Hc" in
        destruct (Pos.compare_spec a b) as [H' | H' | H']; cmp_red_in H
    end.

Lemma SFleb_total (x y : spec_float) :
  Numpy.sf_number x = true -> Numpy.sf_number y = true ->
  SFleb x y = true \/ SFleb y x = true.
Proof.
  unfold SFleb, SFcompare.
  destruct x as [| [] | | [] mx ex], y as [| [] | | [] my ey];
    cbv beta iota delta [Numpy.sf_number];
    try discriminate; auto; intros _ _;
    cmp_cases; auto; try lia.
Qed.

Lemma SFleb_trans (x y z : spec_float) :
  SFleb x y = true -> SFleb y z = true -> SFleb x z = true.
Proof.
  unfold SFleb, SFcompare.
  destruct x as [| [] | | [] mx ex], y as [| [] | | [] my ey],
           z as [| [] | | [] mz ez];
    cbv beta iota;
    try discriminate; auto;
    intros H1 H2;
    cmp_cases; try discriminate; auto; try lia.
Qed.

Lemma is_nan_spec (x : float) :
  is_nan x = negb (Numpy.sf_number (Prim2SF x)).
Proof.
  unfold is_nan. rewrite FloatAxioms.eqb_spec. unfold SFeqb.
  destruct (Prim2SF x) as [| [] | | [] m e]; simpl; try reflexivity;
    rewrite Z.compare_refl;
    change (Pos.compare_cont Eq m m) with (Pos.compare m m);
    rewrite Pos.compare_refl; reflexivity.
Qed.

(** A comparison with NaN on either side is false. *)
Lemma leb_nan_l (x y : float) : is_nan x = true -> (x <=? y)%float = false.
Proof.
  rewrite is_nan_spec, FloatAxioms.leb_spec. unfold SFleb.
  destruct (Prim2SF x); simpl; try discriminate. reflexivity.
Qed.

Lemma leb_nan_r (x y : float) : is_nan y = true -> (x <=? y)%float = false.
Proof.
  rewrite is_nan_spec, FloatAxioms.leb_spec. unfold SFleb.
  destruct (Prim2SF y); simpl; try discriminate.
  destruct (Prim2SF x) as [| [] | | [] ? ?]; reflexivity.
Qed.

Lemma leb_true_not_nan (x y : float) :
  (x <=? y)%float = true -> is_nan x = false /\ is_nan y = false.
Proof.
  intros H. split.
  - destruct (is_nan x) eqn:E; [| reflexivity].
    rewrite (leb_nan_l x y E) in H. discriminate.
  - destruct (is_nan y) eqn:E; [| reflexivity].
    rewrite (leb_nan_r x y E) in H. discriminate.
Qed.

Lemma leb_total (x y : float) :
  is_nan x = false -> is_nan y = false ->
  (x <=? y)%float = true \/ (y <=? x)%float = true.
Proof.
  rewrite !is_nan_spec, !FloatAxioms.leb_spec. intros Hx Hy.
  apply SFleb_total.
  - destruct (Numpy.sf_number (Prim2SF x)); [reflexivity | discriminate].
  - destruct (Numpy.sf_number (Prim2SF y)); [reflexivity | discriminate].
Qed.

Lemma leb_trans (x y z : float) :
  (x <=? y)%float = true -> (y <=? z)%float = true -> (x <=? z)%float = true.
Proof. rewrite !FloatAxioms.leb_spec. apply SFleb_trans. Qed.

Lemma leb_refl (x : float) : is_nan x = false -> (x <=? x)%float = true.
Proof. intros H. destruct (leb_total x x H H); assumption. Qed.

End FloatOrder.

(** ** np.argmin on NaN-free input *)
Module NumpyFacts.
Import FloatOrder.

(** The scan from a running minimum [mp] held at [min_ind]: either [mp]
    stays, being below everything scanned, or the scan ends on the first
    occurrence of the least scanned element, which is strictly below
    [mp]. *)
Lemma argmin_scan_spec (ip : list float) :
  forall (mp : float) (min_ind i : nat),
    is_nan mp = false -> Numpy.no_nan ip ->
    (Numpy.argmin_scan mp min_ind i ip = min_ind
     /\ forall j y, ip !! j = Some y -> (mp <=? y)%float = true)
    \/ (exists k x,
          Numpy.argmin_scan mp min_ind i ip = (i + k)%nat
          /\ ip !! k = Some x
          /\ (mp <=? x)%float = false
          /\ (forall j y, ip !! j = Some y -> (x <=? y)%float = true)
          /\ (forall j y, (j < k)%nat -> ip !! j = Some y ->
                          (y <=? x)%float = false)).
Proof.
  induction ip as [| x rest IH]; intros mp min_ind i Hmp Hnn.
  - left. split; [reflexivity |]. intros j y Hj. destruct j; discriminate.
  - inversion Hnn as [| ? ? Hx Hrest]; subst. simpl.
    destruct (mp <=? x)%float eqn:Hle; simpl.
    + (* the running minimum stays *)
      destruct (IH mp min_ind (S i) Hmp Hrest)
        as [[Hr Hmin] | (k & x' & Hr & Hk & Hlt & Hmin & Hfirst)].
      * left. split; [exact Hr |].
        intros [| j] y Hj; simpl in Hj.
        -- injection Hj as <-. exact Hle.
        -- eapply Hmin; eassumption.
      * right. exists (S k), x'. repeat split.
        -- rewrite Hr. lia.
        -- exact Hk.
        -- exact Hlt.
        -- intros [| j] y Hj; simpl in Hj.
           ++ injection Hj as <-.
              assert (Hx' : is_nan x' = false).
              { pose proof (Hmin k x' Hk) as E.
                apply (leb_true_not_nan _ _ E). }
              destruct (leb_total x' x Hx' Hx) as [Hc | Hc]; [exact Hc |].
              rewrite (leb_trans _ _ _ Hle Hc) in Hlt. discriminate.
           ++ eapply Hmin; eassumption.
        -- intros [| j] y Hlt' Hj; simpl in Hj.
           ++ injection Hj as <-.
              destruct (x <=? x')%float eqn:E; [| reflexivity].
              rewrite (leb_trans _ _ _ Hle E) in Hlt. discriminate.
           ++ eapply Hfirst; [| eassumption]. lia.
    + (* [x] is the new running minimum *)
      rewrite Hx.
      assert (Hxm : (x <=? mp)%float = true).
      { destruct (leb_total x mp Hx Hmp) as [Hc | Hc]; congruence. }
      destruct (IH x i (S i) Hx Hrest)
        as [[Hr Hmin] | (k & x' & Hr & Hk & Hlt & Hmin & Hfirst)].
      * right. exists 0%nat, x. repeat split.
        -- rewrite Hr. lia.
        -- exact Hle.
        -- intros [| j] y Hj; simpl in Hj.
           ++ injection Hj as <-. apply leb_refl. exact Hx.
           ++ eapply Hmin; eassumption.
        -- intros j y Hlt'. lia.
      * right. exists (S k), x'. repeat split.
        -- rewrite Hr. lia.
        -- exact Hk.
        -- destruct (mp <=? x')%float eqn:E; [| reflexivity].
           rewrite (leb_trans _ _ _ Hxm E) in Hlt. discriminate.
        -- intros [| j] y Hj; simpl in Hj.
           ++ injection Hj as <-.
              assert (Hx' : is_nan x' = false).
              { pose proof (Hmin k x' Hk) as E.
                apply (leb_true_not_nan _ _ E). }
              destruct (leb_total x' x Hx' Hx) as [Hc | Hc]; congruence.
           ++ eapply Hmin; eassumption.
        -- intros [| j] y Hlt' Hj; simpl in Hj.
           ++ injection Hj as <-. exact Hlt.
           ++ eapply Hfirst; [| eassumption]. lia.
Qed.

(** [np.argmin] on a non-empty vector without NaN: the index of the
    first occurrence of a least element. *)
Lemma argmin_spec (a : list float) :
  a <> [] -> Numpy.no_nan a ->
  exists r x,
    Numpy.argmin a = inr r
    /\ a !! r = Some x
    /\ (forall j y, a !! j = Some y -> (x <=? y)%float = true)
    /\ (forall j y, (j < r)%nat -> a !! j = Some y ->
                    (y <=? x)%float = false).
Proof.
  destruct a as [| mp rest]; [congruence |]. intros _ Hnn.
  inversion Hnn as [| ? ? Hmp Hrest]; subst. simpl. rewrite Hmp.
  destruct (argmin_scan_spec rest mp 0%nat 1%nat Hmp Hrest)
    as [[Hr Hmin] | (k & x' & Hr & Hk & Hlt & Hmin & Hfirst)].
  - exists 0%nat, mp. rewrite Hr. repeat split.
    + intros [| j] y Hj; simpl in Hj.
      * injection Hj as <-. apply leb_refl. exact Hmp.
      * eapply Hmin; eassumption.
    + intros j y Hlt. lia.
  - exists (S k), x'. rewrite Hr. repeat split.
    + exact Hk.
    + intros [| j] y Hj; simpl in Hj.
      * injection Hj as <-.
        assert (Hx' : is_nan x' = false).
        { pose proof (Hmin k x' Hk) as E. apply (leb_true_not_nan _ _ E). }
        destruct (leb_total x' mp Hx' Hmp) as [Hc | Hc]; congruence.
      * eapply Hmin; eassumption.
    + intros [| j] y Hlt' Hj; simpl in Hj.
      * injection Hj as <-. exact Hlt.
      * eapply Hfirst; [| eassumption]. lia.
Qed.

(** The index [np.argmin] returns is within the array. *)
Lemma argmin_scan_bound (ip : list float) :
  forall (mp : float) (min_ind i : nat),
    (min_ind < i)%nat ->
    (Numpy.argmin_scan mp min_ind i ip < i + length ip)%nat.
Proof.
  induction ip as [| x rest IH]; intros mp min_ind i Hlt; simpl; [lia |].
  destruct (negb (mp <=? x)%float).
  - destruct (is_nan x); [lia |].
    specialize (IH x i (S i)). lia.
  - specialize (IH mp min_ind (S i)). lia.
Qed.

Lemma argmin_bound (a : list float) (r : nat) :
  Numpy.argmin a = inr r -> (r < length a)%nat.
Proof.
  destruct a as [| mp rest]; simpl; [discriminate |].
  intros [= <-]. destruct (is_nan mp); [lia |].
  pose proof (argmin_scan_bound rest mp 0%nat 1%nat). lia.
Qed.

(** On an array holding a NaN, [np.argmin] returns the index of one. *)
Lemma argmin_scan_nan (ip : list float) :
  forall (mp : float) (min_ind i : nat),
    is_nan mp = false -> Numpy.has_nan ip = true ->
    exists k x,
      Numpy.argmin_scan mp min_ind i ip = (i + k)%nat
      /\ ip !! k = Some x /\ is_nan x = true.
Proof.
  unfold Numpy.has_nan.
  induction ip as [| x rest IH]; intros mp min_ind i Hmp Hnan; simpl in *;
    [discriminate |].
  destruct (is_nan x) eqn:Hx.
  - rewrite (leb_nan_r mp x Hx). simpl.
    exists 0%nat, x. repeat split; auto.
  - simpl in Hnan. destruct (negb (mp <=? x)%float).
    + destruct (IH x i (S i) Hx Hnan) as (k & y & Hr & Hk & Hy).
      exists (S k), y. rewrite Hr. repeat split; auto; lia.
    + destruct (IH mp min_ind (S i) Hmp Hnan) as (k & y & Hr & Hk & Hy).
      exists (S k), y. rewrite Hr. repeat split; auto; lia.
Qed.

Lemma argmin_nan (a : list float) :
  Numpy.has_nan a = true ->
  exists r x, Numpy.argmin a = inr r /\ a !! r = Some x /\ is_nan x = true.
Proof.
  destruct a as [| mp rest]; [discriminate |]. unfold Numpy.has_nan. simpl.
  destruct (is_nan mp) eqn:Hmp; simpl.
  - intros _. exists 0%nat, mp. auto.
  - intros Hnan.
    destruct (argmin_scan_nan rest mp 0%nat 1%nat Hmp Hnan)
      as (k & x & Hr & Hk & Hx).
    exists (S k), x. rewrite Hr. auto.
Qed.

End NumpyFacts.

(** ** The matcher: the loop body of [recognize_face] *)
Section Matcher.
Context `{Runtime}.
Import FloatOrder NumpyFacts.

Lemma lookup_map {A B : Type} (f : A -> B) (l : list A) (i : nat) :
  map f l !! i = option_map f (l !! i).
Proof.
  revert i. induction l as [| a l IH]; intros [| i]; simpl; auto.
Qed.

Lemma index_lookup {A : Type} (l : list A) (i : nat) (x : A) :
  l !! i = Some x -> Py.index l i = inr x.
Proof. unfold Py.index. intros ->. reflexivity. Qed.

Lemma existsb_lookup (l : list bool) :
  existsb (fun m : bool => m) l = true -> exists j, l !! j = Some true.
Proof.
  induction l as [| b l IH]; simpl; [discriminate |].
  destruct b; simpl.
  - intros _. exists 0%nat. reflexivity.
  - intros Hl. destruct (IH Hl) as [j Hj]. exists (S j). exact Hj.
Qed.

Lemma face_distance_lookup (known : list Encoding) (q : Encoding) (i : nat) :
  FaceRecognition.face_distance known q !! i
  = option_map (fun e => row_norm e q) (known !! i).
Proof. apply lookup_map. Qed.

Lemma compare_faces_lookup (known : list Encoding) (q : Encoding)
    (t : float) (i : nat) :
  FaceRecognition.compare_faces known q t !! i
  = option_map (fun e => (row_norm e q <=? t)%float) (known !! i).
Proof.
  unfold FaceRecognition.compare_faces.
  rewrite lookup_map, face_distance_lookup.
  destruct (known !! i); reflexivity.
Qed.

(** With no NaN among the distances and some stored encoding within
    tolerance, [np.argmin] lands on a stored encoding that is within
    tolerance, is nearest, and is the first such. *)
Lemma argmin_within_tolerance (known : list Encoding) (q : Encoding)
    (t : float) :
  Numpy.no_nan (FaceRecognition.face_distance known q) ->
  existsb (fun m : bool => m) (FaceRecognition.compare_faces known q t)
    = true ->
  exists r e,
    Numpy.argmin (FaceRecognition.face_distance known q) = inr r
    /\ known !! r = Some e
    /\ (row_norm e q <=? t)%float = true
    /\ (forall j e', known !! j = Some e' ->
                     (row_norm e q <=? row_norm e' q)%float = true)
    /\ (forall j e', (j < r)%nat -> known !! j = Some e' ->
                     (row_norm e' q <=? row_norm e q)%float = false).
Proof.
  intros Hnn Hex.
  destruct (existsb_lookup _ Hex) as [j Hj].
  rewrite compare_faces_lookup in Hj.
  destruct (known !! j) as [ej |] eqn:Hej; [| discriminate].
  simpl in Hj. injection Hj as Hj.
  assert (Hne : FaceRecognition.face_distance known q <> []).
  { intros E. pose proof (face_distance_lookup known q j) as L.
    rewrite E, Hej in L. discriminate. }
  destruct (argmin_spec _ Hne Hnn) as (r & x & Hr & Hx & Hmin & Hfirst).
  rewrite face_distance_lookup in Hx.
  destruct (known !! r) as [e |] eqn:He; [| discriminate].
  simpl in Hx. injection Hx as <-.
  exists r, e. repeat split; try assumption.
  - apply (leb_trans _ (row_norm ej q)); [| exact Hj].
    apply (Hmin j). rewrite face_distance_lookup, Hej. reflexivity.
  - intros j' e' He'. apply (Hmin j').
    rewrite face_distance_lookup, He'. reflexivity.
  - intros j' e' Hlt He'. apply (Hfirst j'); [exact Hlt |].
    rewrite face_distance_lookup, He'. reflexivity.
Qed.

(** What [match_face] returns once [np.argmin] is known to land on a
    match. *)
Lemma match_face_at_argmin (t : float) (data : Data) (q : Encoding)
    (r : nat) (e : Encoding) :
  existsb (fun m : bool => m)
    (FaceRecognition.compare_faces (encodings data) q t) = true ->
  Numpy.argmin (FaceRecognition.face_distance (encodings data) q) = inr r ->
  encodings data !! r = Some e ->
  (row_norm e q <=? t)%float = true ->
  match_face t data q
  = rbind (Py.index (metadata data) r)
      (fun entry => inr (recognized entry (1 - row_norm e q)%float r)).
Proof.
  intros Hex Hr He Hle. unfold match_face. rewrite Hex, Hr. simpl.
  rewrite (index_lookup _ r true)
    by (rewrite compare_faces_lookup, He; simpl; rewrite Hle; reflexivity).
  simpl. destruct (Py.index (metadata data) r) as [err | entry]; simpl;
    [reflexivity |].
  rewrite (index_lookup _ r (row_norm e q))
    by (rewrite face_distance_lookup, He; reflexivity).
  reflexivity.
Qed.

(** As soon as one distance is NaN, no face is reported: [np.argmin]
    lands on a NaN, which is not within any tolerance. *)
Lemma match_face_with_nan (t : float) (data : Data) (q : Encoding) :
  Numpy.has_nan (FaceRecognition.face_distance (encodings data) q) = true ->
  match_face t data q = inr not_recognized.
Proof.
  intros Hnan. unfold match_face.
  destruct (existsb _ _); [| reflexivity].
  destruct (argmin_nan _ Hnan) as (r & x & -> & Hx & Hnanx). simpl.
  rewrite face_distance_lookup in Hx.
  destruct (encodings data !! r) as [e |] eqn:He; [| discriminate].
  simpl in Hx. injection Hx as <-.
  rewrite (index_lookup _ r false); [reflexivity |].
  rewrite compare_faces_lookup, He. simpl.
  rewrite (leb_nan_l _ t Hnanx). reflexivity.
Qed.

(** On a store whose two lists have the same length, [match_face] never
    raises. *)
Lemma match_face_total (t : float) (data : Data) (q : Encoding) :
  aligned data -> exists result, match_face t data q = inr result.
Proof.
  intros Hal. unfold match_face.
  destruct (existsb _ _) eqn:Hex; [| eauto].
  destruct (Numpy.argmin _) as [err | r] eqn:Hr.
  - unfold FaceRecognition.compare_faces, FaceRecognition.face_distance
      in Hex, Hr.
    destruct (encodings data) as [| e rest]; simpl in Hex, Hr; discriminate.
  - simpl. apply argmin_bound in Hr.
    unfold FaceRecognition.face_distance in Hr. rewrite length_map in Hr.
    destruct (lookup_lt_is_Some_2 (encodings data) r Hr) as [e He].
    assert (Hm : (r < length (metadata data))%nat)
      by (unfold aligned in Hal; lia).
    destruct (lookup_lt_is_Some_2 (metadata data) r Hm) as [entry Hentry].
    rewrite (index_lookup _ r (row_norm e q <=? t)%float)
      by (rewrite compare_faces_lookup, He; reflexivity).
    simpl. destruct (row_norm e q <=? t)%float; [| eauto].
    rewrite (index_lookup _ _ _ Hentry). simpl.
    rewrite (index_lookup _ r (row_norm e q))
      by (rewrite face_distance_lookup, He; reflexivity).
    eauto.
Qed.

End Matcher.

Section MatcherClaims.
Context `{Runtime}.
Import FloatOrder NumpyFacts.

Lemma has_nan_false (a : list float) :
  Numpy.has_nan a = false -> Numpy.no_nan a.
Proof.
  unfold Numpy.has_nan, Numpy.no_nan.
  induction a as [| x a IH]; simpl; intros Hn.
  - constructor.
  - apply orb_false_iff in Hn as [Hx Ha]. constructor; auto.
Qed.

(** C1.  With one stored encoding [B] at distance [d] from the query
    [A], the matcher reports a match exactly when [d <= t], and the entry
    it reports then carries the confidence [1 - d] (and index 0);
    otherwise it reports "not recognized". *)
Theorem match_against_single_encoding (A B : Encoding) (entry : Metadata)
    (t : float) :
  let d := row_norm B A in
  let result := if (d <=? t)%float
                then recognized entry (1 - d)%float 0
                else not_recognized in
  match_face t {| encodings := [B]; metadata := [entry] |} A = inr result
  /\ Py.pfield "recognized" result = Some (Py.Json (Py.Bool (d <=? t)%float))
  /\ (if (d <=? t)%float
      then Py.pfield "confidence" result
           = Some (Py.Json (Py.Float (1 - d)%float))
      else Py.pfield "confidence" result = None).
Proof.
  intros d result. subst result. unfold match_face. simpl. fold d.
  destruct (d <=? t)%float eqn:Hle; simpl.
  - destruct (is_nan d); simpl; fold d; rewrite Hle; auto.
  - auto.
Qed.

(** C10.  The distances to the query being Euclidean distances between
    numeric vectors, none of them NaN: when some stored encoding is
    within tolerance, the stored encoding [np.argmin] picks is a nearest
    one and is itself within tolerance.  The test
    [matches[best_match_index]] succeeds, so the inner "not recognized"
    branch is not taken. *)
Theorem argmin_within_tolerance_is_match (t : float) (data : Data)
    (q : Encoding) :
  Numpy.has_nan (FaceRecognition.face_distance (encodings data) q) = false ->
  existsb (fun m : bool => m)
    (FaceRecognition.compare_faces (encodings data) q t) = true ->
  exists r e,
    Numpy.argmin (FaceRecognition.face_distance (encodings data) q) = inr r
    /\ encodings data !! r = Some e
    /\ (forall j e', encodings data !! j = Some e' ->
                     (row_norm e q <=? row_norm e' q)%float = true)
    /\ (row_norm e q <=? t)%float = true
    /\ Py.index (FaceRecognition.compare_faces (encodings data) q t) r
       = inr true
    /\ match_face t data q
       = rbind (Py.index (metadata data) r)
           (fun entry => inr (recognized entry (1 - row_norm e q)%float r)).
Proof.
  intros Hnn Hex. apply has_nan_false in Hnn.
  destruct (argmin_within_tolerance _ _ _ Hnn Hex)
    as (r & e & Hr & He & Hle & Hmin & _).
  exists r, e. repeat split; try assumption.
  - apply index_lookup. rewrite compare_faces_lookup, He. simpl.
    rewrite Hle. reflexivity.
  - apply (match_face_at_argmin t data q r e); assumption.
Qed.


(** C9 (amended).  Whatever [match_face] appends for a face is one of two
    dicts: on a match, [recognized: True] with the matched record's
    index under [person_id], its [confidence] (one minus its distance to
    the query) and its name, age and gender; otherwise
    [recognized: False].  Neither carries the distance itself. *)
Theorem match_face_result_fields (t : float) (data : Data) (q : Encoding)
    (result : Py.payload) :
  match_face t data q = inr result ->
  Py.pfield "distance" result = None
  /\ ((exists i e entry,
          encodings data !! i = Some e
          /\ metadata data !! i = Some entry
          /\ (row_norm e q <=? t)%float = true
          /\ result = recognized entry (1 - row_norm e q)%float i
          /\ Py.pfield "recognized" result = Some (Py.Json (Py.Bool true))
          /\ Py.pfield "person_id" result
             = Some (Py.NpInt64 (Z.of_nat i))
          /\ Py.pfield "confidence" result
             = Some (Py.Json (Py.Float (1 - row_norm e q)%float))
          /\ Py.pfield "name" result = Some (Py.Json (name entry))
          /\ Py.pfield "age" result = Some (Py.Json (Py.Int (age entry)))
          /\ Py.pfield "gender" result = Some (Py.Json (gender entry)))
      \/ (result = not_recognized
          /\ Py.pfield "recognized" result
             = Some (Py.Json (Py.Bool false)))).
Proof.
  unfold match_face.
  destruct (existsb _ _);
    [| intros [= <-]; split; [reflexivity | right; split; reflexivity]].
  destruct (Numpy.argmin _) as [err | r]; simpl; [discriminate |].
  unfold Py.index at 1. rewrite compare_faces_lookup.
  destruct (encodings data !! r) as [e |] eqn:He; simpl; [| discriminate].
  destruct (row_norm e q <=? t)%float eqn:Hle;
    [| intros [= <-]; split; [reflexivity | right; split; reflexivity]].
  unfold Py.index at 1.
  destruct (metadata data !! r) as [entry |] eqn:Hentry; simpl;
    [| discriminate].
  unfold Py.index. rewrite face_distance_lookup, He. simpl.
  intros [= <-]. split; [reflexivity |]. left.
  exists r, e, entry. repeat split; assumption || reflexivity.
Qed.

End MatcherClaims.

(** ** What a view does to the storage *)
Section StorageEffects.
Context `{Runtime}.

Lemma load_data_stored (st : Storage) : load_data st = (Normal (stored st), st).
Proof. destruct st; reflexivity. Qed.

Lemma return_json {A : Type} (v : Py.value) (code : Z) (st : Storage) :
  return_ (A := A) (Py.Json v) code st = (Returned (Response v code), st).
Proof. reflexivity. Qed.

Lemma lift_frame {A : Type} (r : Result A) (st : Storage) :
  snd (lift r st) = st.
Proof. destruct r; reflexivity. Qed.

(** Reading the request does not touch the storage. *)
Lemma request_image_frame (req : request) (st : Storage) :
  snd (request_image req st) = st.
Proof.
  unfold request_image, bind.
  destruct (Py.assoc "image" (files req)); [reflexivity |].
  destruct (json req) as [e | j]; [reflexivity |]. simpl.
  destruct (Py.contains "image" j) as [e | []]; simpl; try reflexivity.
  destruct (Py.getitem "image" j); reflexivity.
Qed.

Lemma request_field_frame (req : request) (k : string) (st : Storage) :
  snd (request_field req k st) = st.
Proof.
  unfold request_field, bind.
  destruct (Py.truthy _); [reflexivity |].
  destruct (json req) as [e | j]; [reflexivity |]. simpl.
  destruct (Py.get k j); reflexivity.
Qed.

(** Case analysis on a step that reads the request: its storage is the
    one it started from. *)
Ltac read_request step st :=
  let F := fresh "F" in
  let s := fresh "s" in
  pose proof (step st) as F;
  match type of F with
  | snd ?call = _ =>
      destruct call as [[? | ? | ?] s]; simpl in F; subst s; simpl
  end.

(** [register_face] leaves the storage as it was or saves the loaded
    lists, each extended by one element. *)
Lemma register_face_storage (now : string) (req : request) (st : Storage) :
  let st' := snd (try_except (register_face now req) st) in
  st' = st
  \/ exists (e : Encoding) (entry : Metadata),
      st' = Some {| encodings := encodings (stored st) ++ [e];
                    metadata := metadata (stored st) ++ [entry] |}.
Proof.
  unfold try_except, register_face, bind.
  read_request (request_image_frame req) st; auto.
  read_request (request_field_frame req "name") st; auto.
  read_request (request_field_frame req "age") st; auto.
  read_request (request_field_frame req "gender") st; auto.
  destruct (negb _); [rewrite return_json; auto |].
  destruct (decode_image _) as [e | image_array]; simpl; auto.
  destruct (Nat.eqb _ 0); [rewrite return_json; auto |].
  destruct (Nat.ltb 1 _); [rewrite return_json; auto |].
  rewrite load_data_stored.
  destruct (Py.index _ 0) as [e | face_encoding]; simpl; auto.
  destruct (py_int _) as [e | age_int]; simpl; auto.
  right. eauto.
Qed.

Lemma recognize_face_storage (req : request) (st : Storage) :
  snd (try_except (recognize_face req) st) = st.
Proof.
  unfold try_except, recognize_face, bind.
  read_request (request_image_frame req) st; auto.
  destruct (decode_image _) as [e | image_array]; simpl; auto.
  destruct (Nat.eqb _ 0); [rewrite return_json; auto |].
  rewrite load_data_stored.
  destruct (Nat.eqb _ 0); [rewrite return_json; auto |].
  destruct (for_each _ _) as [e | results]; simpl; auto.
  destruct results as [| result [| ? ?]];
    unfold return_; destruct (jsonify _); reflexivity.
Qed.

Lemma list_people_storage (st : Storage) :
  snd (try_except list_people st) = st.
Proof.
  unfold try_except, list_people, bind. rewrite load_data_stored.
  reflexivity.
Qed.

(** [delete_person] leaves the storage as it was or saves the loaded
    lists, each with the element at [person_id] removed. *)
Lemma delete_person_storage (person_id : Z) (st : Storage) :
  let st' := snd (try_except (delete_person person_id) st) in
  st' = st
  \/ (0 <= person_id
      /\ (Z.to_nat person_id < length (encodings (stored st)))%nat
      /\ (Z.to_nat person_id < length (metadata (stored st)))%nat
      /\ st' = Some {| encodings :=
                         delete (Z.to_nat person_id) (encodings (stored st));
                       metadata :=
                         delete (Z.to_nat person_id)
                           (metadata (stored st)) |}).
Proof.
  unfold try_except, delete_person, bind. rewrite load_data_stored.
  destruct (_ || _) eqn:Hguard; [rewrite return_json; auto |].
  apply orb_false_iff in Hguard as [Hneg Hge].
  apply Z.ltb_ge in Hneg. rewrite Z.geb_leb in Hge. apply Z.leb_gt in Hge.
  unfold Py.index. destruct (metadata (stored st) !! _) eqn:Hm; simpl; auto.
  apply lookup_lt_Some in Hm.
  unfold py_del.
  destruct (Nat.ltb_spec (Z.to_nat person_id)
              (length (encodings (stored st)))); simpl; auto.
  destruct (Nat.ltb_spec (Z.to_nat person_id)
              (length (metadata (stored st)))); simpl; auto.
Qed.

Lemma clear_database_storage (st : Storage) :
  snd (try_except clear_database st) = Some empty_data.
Proof. reflexivity. Qed.

End StorageEffects.

(** ** The store and the handlers *)
Section HandlerClaims.
Context `{Runtime}.

(** C3.  Along any sequence of calls, the encodings list and the
    metadata list of the stored data keep the same length: [register]
    appends to both, [delete] removes the same position of both, [clear]
    empties both, and the other routes do not write. *)
Theorem lengths_stay_equal (calls : list (string * call)) (st : Storage) :
  aligned (stored st) -> aligned (stored (run calls st)).
Proof.
  revert st. induction calls as [| [now c] calls IH]; intros st Hst;
    [exact Hst |].
  simpl. apply IH. clear IH. unfold aligned in *.
  destruct c as [| req | req | | person_id |]; simpl.
  - exact Hst.
  - destruct (register_face_storage now req st) as [-> | (e & m & ->)];
      [exact Hst |].
    simpl. rewrite !length_app. simpl. lia.
  - rewrite recognize_face_storage. exact Hst.
  - rewrite list_people_storage. exact Hst.
  - destruct (delete_person_storage person_id st)
      as [-> | (_ & He & Hm & ->)]; [exact Hst |].
    simpl. rewrite !length_delete by (apply lookup_lt_is_Some; assumption). lia.
  - reflexivity.
Qed.

(** C6.  A [person_id] below zero or not below the number of stored
    encodings is answered with 404 "Invalid person_id", and the storage
    is left as it was. *)
Theorem delete_out_of_range (now : string) (person_id : Z) (st : Storage) :
  person_id < 0 \/ Z.of_nat (length (encodings (stored st))) <= person_id ->
  serve now (DELETE_delete person_id) st
  = (Response (error "Invalid person_id") 404, st).
Proof.
  intros Hout. simpl. unfold try_except, delete_person, bind.
  rewrite load_data_stored.
  assert (Hguard : (person_id <? 0)%Z
                   || (person_id >=?
                         Z.of_nat (length (encodings (stored st))))%Z
                   = true).
  { apply orb_true_iff. rewrite Z.ltb_lt, Z.geb_leb, Z.leb_le. exact Hout. }
  rewrite Hguard. reflexivity.
Qed.

(** C5.  Deleting at an index [i] within a store of [n] records answers
    200 with the metadata that was at [i] under [deleted], and saves a
    store of [n - 1] records in which the records below [i] are where
    they were and every later record has moved down by one. *)
Theorem delete_shifts_later_records (now : string) (i : Z) (st : Storage) :
  aligned (stored st) ->
  0 <= i < Z.of_nat (length (encodings (stored st))) ->
  exists entry : Metadata,
    metadata (stored st) !! Z.to_nat i = Some entry
    /\ status (fst (serve now (DELETE_delete i) st)) = 200
    /\ Py.field "deleted" (body (fst (serve now (DELETE_delete i) st)))
       = Some (metadata_value entry)
    /\ let data := stored st in
       let data' := stored (snd (serve now (DELETE_delete i) st)) in
       S (length (encodings data')) = length (encodings data)
       /\ S (length (metadata data')) = length (metadata data)
       /\ (forall j : nat, (j < Z.to_nat i)%nat ->
             encodings data' !! j = encodings data !! j
             /\ metadata data' !! j = metadata data !! j)
       /\ (forall j : nat, (Z.to_nat i <= j)%nat ->
             encodings data' !! j = encodings data !! S j
             /\ metadata data' !! j = metadata data !! S j).
Proof.
  intros Hal [Hlo Hhi]. unfold aligned in Hal.
  assert (He : (Z.to_nat i < length (encodings (stored st)))%nat) by lia.
  assert (Hm : (Z.to_nat i < length (metadata (stored st)))%nat) by lia.
  destruct (lookup_lt_is_Some_2 _ _ Hm) as [entry Hentry].
  assert (Hrun : serve now (DELETE_delete i) st
                 = (Response
                      (Py.Dict
                         [("success", Py.Bool true);
                          ("message",
                            Py.Str ("Deleted "
                                    ++ format_value (name entry)));
                          ("deleted", metadata_value entry)]) 200,
                    Some {| encodings :=
                              delete (Z.to_nat i) (encodings (stored st));
                            metadata :=
                              delete (Z.to_nat i) (metadata (stored st)) |})).
  { unfold serve, try_except, delete_person, bind.
    rewrite load_data_stored.
    assert (Hguard : (i <? 0)%Z
                     || (i >=? Z.of_nat (length (encodings (stored st))))%Z
                     = false).
    { apply orb_false_iff. rewrite Z.ltb_ge, Z.geb_leb, Z.leb_gt. lia. }
    rewrite Hguard. unfold Py.index. rewrite Hentry.
    unfold py_del.
    destruct (Nat.ltb_spec (Z.to_nat i) (length (encodings (stored st))));
      [| lia].
    destruct (Nat.ltb_spec (Z.to_nat i) (length (metadata (stored st))));
      [| lia].
    reflexivity. }
  exists entry. rewrite Hrun. simpl.
  split; [exact Hentry |]. split; [reflexivity |].
  split. { destruct (String.eqb_spec "deleted" "deleted"); congruence. }
  rewrite !length_delete by (apply lookup_lt_is_Some; assumption).
  repeat split; try lia.
  - apply list_lookup_delete_lt; assumption.
  - apply list_lookup_delete_lt; assumption.
  - apply list_lookup_delete_ge; assumption.
  - apply list_lookup_delete_ge; assumption.
Qed.

(** C4.  A register request that gets as far as detection and whose
    image shows a number of faces other than one is answered with 400,
    "No face detected in image" for none and "Multiple faces detected"
    for several, and the storage is left as it was. *)
Theorem register_wrong_face_count (now : string) (req : request)
    (st : Storage) (image_data : image_source) (name age gender : Py.value)
    (image_array : ImageArray) :
  supplies req st image_data name age gender ->
  decode_image image_data = inr image_array ->
  length (face_encodings image_array (face_locations image_array)) <> 1%nat ->
  serve now (POST_register req) st
  = (Response
       (error
          (if Nat.eqb
                (length (face_encodings image_array
                           (face_locations image_array))) 0
           then "No face detected in image"
           else "Multiple faces detected. "
                ++ "Please provide image with single face"))
       400,
     st).
Proof.
  intros (Himage & Hname & Hage & Hgender & Hall) Hdecode Hcount.
  unfold serve, try_except, register_face, bind.
  rewrite Himage, Hname, Hage, Hgender, Hall, Hdecode.
  cbv beta iota delta [negb lift ret].
  destruct (Nat.eqb_spec
              (length (face_encodings image_array
                         (face_locations image_array))) 0) as [E | E];
    [reflexivity |].
  destruct (Nat.ltb_spec 1
              (length (face_encodings image_array
                         (face_locations image_array)))) as [L | L];
    [reflexivity | lia].
Qed.

(** C7 (amended).  A register request that carries an image, a name, an
    age and a gender, and whose age [int()] rejects, is never answered
    with 200 and never changes the storage.  The conversion runs after
    detection: the answer is 500 with the conversion's message when the
    image decodes and shows exactly one face, and otherwise the 500 of a
    failed decoding or the 400 of a wrong face count. *)
Theorem register_age_not_an_integer (now : string) (req : request)
    (st : Storage) (image_data : image_source) (name age gender : Py.value)
    (e : Py.exn) :
  supplies req st image_data name age gender ->
  py_int age = inl e ->
  snd (serve now (POST_register req) st) = st
  /\ (status (fst (serve now (POST_register req) st)) = 400
      \/ status (fst (serve now (POST_register req) st)) = 500)
  /\ (forall image_array : ImageArray,
        decode_image image_data = inr image_array ->
        length (face_encodings image_array (face_locations image_array))
        = 1%nat ->
        fst (serve now (POST_register req) st)
        = Response (error (Py.exn_str e)) 500).
Proof.
  intros (Himage & Hname & Hage & Hgender & Hall) Hint.
  unfold serve, try_except, register_face, bind.
  rewrite Himage, Hname, Hage, Hgender, Hall.
  cbv beta iota delta [negb].
  destruct (decode_image image_data) as [err | image_array];
    cbv beta iota delta [lift ret raise].
  { simpl. repeat split; auto. intros ? [=]. }
  destruct (Nat.eqb_spec
              (length (face_encodings image_array
                         (face_locations image_array))) 0) as [E | E].
  { rewrite return_json. simpl. repeat split; auto.
    intros ? [= <-] Hone. lia. }
  destruct (Nat.ltb_spec 1
              (length (face_encodings image_array
                         (face_locations image_array)))) as [L | L].
  { rewrite return_json. simpl. repeat split; auto.
    intros ? [= <-] Hone. lia. }
  rewrite load_data_stored.
  destruct (face_encodings image_array (face_locations image_array))
    as [| face_encoding rest]; [contradiction |].
  unfold Py.index. simpl lookup. rewrite Hint. simpl.
  repeat split; auto.
Qed.

Lemma split_head_tail (s : string) :
  exists h t, Py.split "," s = h :: t.
Proof.
  induction s as [| c s (h & t & IH)]; simpl; [eauto |].
  destruct (Ascii.eqb c ","); [eauto |]. rewrite IH. eauto.
Qed.

Lemma split_after_first_comma (s : string) :
  Py.has_char "," s = true ->
  exists h, Py.split "," s = h :: Py.split "," (after_first_comma s).
Proof.
  induction s as [| c s IH]; simpl; [discriminate |].
  destruct (Ascii.eqb c ",") eqn:E; simpl; [eauto |].
  intros Hs. destruct (IH Hs) as [h ->]. eauto.
Qed.

Lemma split_no_comma (s : string) :
  Py.has_char "," s = false -> Py.split "," s = [s].
Proof.
  induction s as [| c s IH]; simpl; [reflexivity |].
  destruct (Ascii.eqb c ","); simpl; [discriminate |].
  intros Hs. rewrite (IH Hs). reflexivity.
Qed.

(** The string decoded is the input itself when it has no comma, else
    the first segment of what follows its first comma: what lies between
    the first comma and the second, or the end. *)
Lemma base64_payload_segment (s : string) :
  Py.has_char "," s = true ->
  exists segment rest,
    Py.split "," (after_first_comma s) = segment :: rest
    /\ base64_payload s = inr segment.
Proof.
  intros Hs. unfold base64_payload. rewrite Hs.
  destruct (split_after_first_comma s Hs) as [h ->].
  destruct (split_head_tail (after_first_comma s)) as (segment & rest & E).
  exists segment, rest. rewrite E. split; reflexivity.
Qed.

(** With exactly one comma in the input, the string decoded is all that
    follows it. *)
Lemma base64_payload_single_comma (s : string) :
  Py.has_char "," s = true ->
  Py.has_char "," (after_first_comma s) = false ->
  base64_payload s = inr (after_first_comma s).
Proof.
  intros Hs Hrest. unfold base64_payload. rewrite Hs.
  destruct (split_after_first_comma s Hs) as [h ->].
  rewrite (split_no_comma _ Hrest). reflexivity.
Qed.

(** C8.  On an input with two commas the string handed to
    [base64.b64decode] ends at the second comma, where the remainder
    after the first comma goes on; what follows the second comma never
    reaches the decoder, so the image decoded is that of the middle
    segment alone. *)
Theorem base64_payload_stops_at_second_comma :
  base64_payload "data:image/png;base64,AAAA,BBBB" = inr "AAAA"
  /\ after_first_comma "data:image/png;base64,AAAA,BBBB" = "AAAA,BBBB"
  /\ decode_image (JsonField (Py.Str "data:image/png;base64,AAAA,BBBB"))
     = decode_image (JsonField (Py.Str "AAAA")).
Proof. repeat split. Qed.

End HandlerClaims.

(** ** The handlers at work on the stand-in runtime *)
Module Examples.
Import TestDouble.

Definition ann : Metadata :=
  {| name := Py.Str "Ann"; age := 31; gender := Py.Str "F";
     registered_at := Some "2024-01-01T10:00:00" |}.
Definition bob : Metadata :=
  {| name := Py.Str "Bob"; age := 45; gender := Py.Str "M";
     registered_at := Some "2024-01-02T10:00:00" |}.
Definition cyd : Metadata :=
  {| name := Py.Str "Cyd"; age := 27; gender := Py.Str "X";
     registered_at := None |}.

(** Three people at distances 0.75, 0.5 and 0.5 from the query [[0]]. *)
Definition three : Data :=
  {| encodings := [[0.75%float]; [0.5%float]; [0.5%float]];
     metadata := [ann; bob; cyd] |}.

Definition origin : list float := [0%float].

(** A JSON request. *)
Definition json_request (fields : list (string * Py.value)) : request :=
  {| files := []; form := []; json := inr (Py.Dict fields) |}.

Definition register_request (image age : string) : request :=
  json_request [("image", Py.Str image); ("name", Py.Str "Ann");
                ("age", Py.Str age); ("gender", Py.Str "F")].

(** Registration, then the same picture cannot be reported: the numpy
    index in the payload makes [jsonify] raise. *)
Example register_then_recognize :
  let st := snd (serve "t0" (POST_register (register_request "A" "31")) None) in
  st = Some {| encodings := [[65%float]];
               metadata := [{| name := Py.Str "Ann"; age := 31;
                               gender := Py.Str "F";
                               registered_at := Some "t0" |}] |}
  /\ fst (serve "t1" (POST_recognize (json_request [("image", Py.Str "A")])) st)
     = Response (error "Object of type int64 is not JSON serializable") 500.
Proof. split; reflexivity. Qed.


(** C10 on an example: [np.argmin] lands on the second of three. *)
Lemma argmin_within_tolerance_is_match_witness :
  exists r e,
    Numpy.argmin (FaceRecognition.face_distance (encodings three) origin)
    = inr r
    /\ encodings three !! r = Some e
    /\ (forall j e', encodings three !! j = Some e' ->
                     (row_norm e origin <=? row_norm e' origin)%float = true)
    /\ (row_norm e origin <=? TOLERANCE)%float = true
    /\ Py.index
         (FaceRecognition.compare_faces (encodings three) origin TOLERANCE) r
       = inr true
    /\ match_face TOLERANCE three origin
       = rbind (Py.index (metadata three) r)
           (fun entry =>
              inr (recognized entry (1 - row_norm e origin)%float r)).
Proof.
  apply (argmin_within_tolerance_is_match TOLERANCE three origin);
    reflexivity.
Defined.

(** C9 on an example: the entry reported for the second of three. *)
Lemma match_face_result_fields_witness :
  let result := recognized bob 0.5%float 1 in
  Py.pfield "distance" result = None
  /\ ((exists i e entry,
          encodings three !! i = Some e
          /\ metadata three !! i = Some entry
          /\ (row_norm e origin <=? TOLERANCE)%float = true
          /\ result = recognized entry (1 - row_norm e origin)%float i
          /\ Py.pfield "recognized" result = Some (Py.Json (Py.Bool true))
          /\ Py.pfield "person_id" result = Some (Py.NpInt64 (Z.of_nat i))
          /\ Py.pfield "confidence" result
             = Some (Py.Json (Py.Float (1 - row_norm e origin)%float))
          /\ Py.pfield "name" result = Some (Py.Json (name entry))
          /\ Py.pfield "age" result = Some (Py.Json (Py.Int (age entry)))
          /\ Py.pfield "gender" result = Some (Py.Json (gender entry)))
      \/ (result = not_recognized
          /\ Py.pfield "recognized" result
             = Some (Py.Json (Py.Bool false)))).
Proof.
  apply (match_face_result_fields TOLERANCE three origin). reflexivity.
Defined.

(** C9 as the specification states it does not hold for the distance:
    the entry reported for a match has no such field, and two stores
    whose only encodings lie at different distances from the query get
    the same entry, so that no field of it determines the distance. *)
Lemma recognized_entry_omits_distance :
  let near := {| encodings := [[0x1p-60%float]]; metadata := [ann] |} in
  let nearer := {| encodings := [[0x1p-61%float]]; metadata := [ann] |} in
  match_face TOLERANCE near origin = inr (recognized ann 1%float 0)
  /\ match_face TOLERANCE nearer origin = inr (recognized ann 1%float 0)
  /\ FaceRecognition.face_distance (encodings near) origin = [0x1p-60%float]
  /\ FaceRecognition.face_distance (encodings nearer) origin
     = [0x1p-61%float]
  /\ (0x1p-60 =? 0x1p-61)%float = false
  /\ Py.pfield "distance" (recognized ann 1%float 0) = None
  /\ map fst match recognized ann 1%float 0 with
             | Py.PDict d => d
             | _ => []
             end
     = ["recognized"; "name"; "age"; "gender"; "confidence"; "person_id"].
Proof. repeat split. Qed.

(** C3 on an example: two registrations, a deletion and a clearing, from
    an absent file. *)
Lemma lengths_stay_equal_witness :
  aligned (stored None)
  /\ aligned
       (stored
          (run [("t0", POST_register (register_request "A" "31"));
                ("t1", POST_register (register_request "B" "45"));
                ("t2", DELETE_delete 0);
                ("t3", POST_clear)] None)).
Proof.
  split; [reflexivity |].
  apply (lengths_stay_equal
           [("t0", POST_register (register_request "A" "31"));
            ("t1", POST_register (register_request "B" "45"));
            ("t2", DELETE_delete 0);
            ("t3", POST_clear)] None).
  reflexivity.
Defined.

(** C4 on an example: a picture with two faces. *)
Lemma register_wrong_face_count_witness :
  serve "t0" (POST_register (register_request "AB" "31")) (Some three)
  = (Response
       (error "Multiple faces detected. Please provide image with single face")
       400,
     Some three).
Proof.
  apply (register_wrong_face_count "t0" (register_request "AB" "31")
           (Some three) (JsonField (Py.Str "AB"))
           (Py.Str "Ann") (Py.Str "31") (Py.Str "F")
           [[65%float]; [66%float]]).
  - repeat split.
  - reflexivity.
  - simpl. lia.
Defined.

(** C5 on an example: deleting the second of three. *)
Lemma delete_shifts_later_records_witness :
  exists entry : Metadata,
    metadata (stored (Some three)) !! Z.to_nat 1 = Some entry
    /\ status (fst (serve "t0" (DELETE_delete 1) (Some three))) = 200
    /\ Py.field "deleted"
         (body (fst (serve "t0" (DELETE_delete 1) (Some three))))
       = Some (metadata_value entry)
    /\ let data := stored (Some three) in
       let data' := stored (snd (serve "t0" (DELETE_delete 1) (Some three))) in
       S (length (encodings data')) = length (encodings data)
       /\ S (length (metadata data')) = length (metadata data)
       /\ (forall j : nat, (j < Z.to_nat 1)%nat ->
             encodings data' !! j = encodings data !! j
             /\ metadata data' !! j = metadata data !! j)
       /\ (forall j : nat, (Z.to_nat 1 <= j)%nat ->
             encodings data' !! j = encodings data !! S j
             /\ metadata data' !! j = metadata data !! S j).
Proof.
  apply (delete_shifts_later_records "t0" 1 (Some three)).
  - reflexivity.
  - simpl. lia.
Defined.

(** C6 on an example: an index just past the end. *)
Lemma delete_out_of_range_witness :
  serve "t0" (DELETE_delete 3) (Some three)
  = (Response (error "Invalid person_id") 404, Some three).
Proof.
  apply (delete_out_of_range "t0" 3 (Some three)). right. simpl. lia.
Defined.

(** C7 on an example: the age "abc" with a picture of one face. *)
Lemma register_age_not_an_integer_witness :
  let call := POST_register (register_request "A" "abc") in
  snd (serve "t0" call (Some three)) = Some three
  /\ (status (fst (serve "t0" call (Some three))) = 400
      \/ status (fst (serve "t0" call (Some three))) = 500)
  /\ (forall image_array : ImageArray,
        decode_image (JsonField (Py.Str "A")) = inr image_array ->
        length (face_encodings image_array (face_locations image_array))
        = 1%nat ->
        fst (serve "t0" call (Some three))
        = Response
            (error "invalid literal for int() with base 10: 'abc'") 500).
Proof.
  apply (register_age_not_an_integer "t0" (register_request "A" "abc")
           (Some three) (JsonField (Py.Str "A"))
           (Py.Str "Ann") (Py.Str "abc") (Py.Str "F")
           (Py.Exn Py.ValueError
              "invalid literal for int() with base 10: 'abc'")).
  - repeat split.
  - reflexivity.
Defined.

(** C7 as the specification states it does not hold for the status: the
    request carries an image with one face, a name, a gender and the age
    "abc", which [int()] rejects; the "required" check lets it through
    and the answer is 500, not 400. *)
Lemma register_age_abc_answers_500 :
  let req := register_request "A" "abc" in
  supplies req (Some three) (JsonField (Py.Str "A"))
    (Py.Str "Ann") (Py.Str "abc") (Py.Str "F")
  /\ py_int (Py.Str "abc")
     = inl (Py.Exn Py.ValueError
              "invalid literal for int() with base 10: 'abc'")
  /\ serve "t0" (POST_register req) (Some three)
     = (Response (error "invalid literal for int() with base 10: 'abc'") 500,
        Some three)
  /\ status (fst (serve "t0" (POST_register req) (Some three))) <> 400.
Proof. repeat split. discriminate. Qed.

End Examples.

(** ** Further properties of the handlers *)
Section Registration.
Context `{Runtime}.

(** The run of [register_face] on a request that goes all the way. *)
Lemma register_face_success_run (now : string) (req : request) (st : Storage)
    (image_data : image_source) (name age gender : Py.value)
    (image_array : ImageArray) (face_encoding : Encoding) (age_int : Z) :
  supplies req st image_data name age gender ->
  decode_image image_data = inr image_array ->
  face_encodings image_array (face_locations image_array) = [face_encoding] ->
  py_int age = inr age_int ->
  serve now (POST_register req) st
  = (Response
       (Py.Dict
          [("success", Py.Bool true);
           ("message",
             Py.Str ("Successfully registered " ++ format_value name));
           ("person_id",
             Py.Int
               (Z.of_nat
                  (length (encodings (stored st) ++ [face_encoding])) - 1));
           ("metadata",
             metadata_value
               {| name := name; age := age_int; gender := gender;
                  registered_at := Some now |})]) 200,
     Some {| encodings := encodings (stored st) ++ [face_encoding];
             metadata :=
               metadata (stored st)
               ++ [{| name := name; age := age_int; gender := gender;
                      registered_at := Some now |}] |}).
Proof.
  intros (Himage & Hname & Hage & Hgender & Hall) Hdecode Hfound Hint.
  unfold serve, try_except, register_face, bind.
  rewrite Himage, Hname, Hage, Hgender, Hall, Hdecode.
  cbv beta iota zeta delta [negb lift ret]. rewrite Hfound.
  change (Nat.eqb (length [face_encoding]) 0) with false.
  change (Nat.ltb 1 (length [face_encoding])) with false.
  cbv beta iota. rewrite load_data_stored.
  unfold Py.index. simpl lookup. rewrite Hint. reflexivity.
Qed.

Lemma delete_last {A : Type} (l : list A) (x : A) :
  delete (length l) (l ++ [x])%list = l.
Proof. induction l as [| a l IH]; simpl; [reflexivity | now rewrite IH]. Qed.

(** The run of [delete_person] on an index both lists have. *)
Lemma delete_person_success_run (now : string) (i : nat) (st : Storage)
    (entry : Metadata) :
  metadata (stored st) !! i = Some entry ->
  (i < length (encodings (stored st)))%nat ->
  serve now (DELETE_delete (Z.of_nat i)) st
  = (Response
       (Py.Dict
          [("success", Py.Bool true);
           ("message", Py.Str ("Deleted " ++ format_value (name entry)));
           ("deleted", metadata_value entry)]) 200,
     Some {| encodings := delete i (encodings (stored st));
             metadata := delete i (metadata (stored st)) |}).
Proof.
  intros Hentry He.
  assert (Hm : (i < length (metadata (stored st)))%nat)
    by (eapply lookup_lt_Some; exact Hentry).
  unfold serve, try_except, delete_person, bind.
  rewrite load_data_stored.
  assert (Hguard : (Z.of_nat i <? 0)%Z
                   || (Z.of_nat i >=?
                         Z.of_nat (length (encodings (stored st))))%Z
                   = false).
  { apply orb_false_iff. rewrite Z.ltb_ge, Z.geb_leb, Z.leb_gt. lia. }
  rewrite Hguard, Nat2Z.id. unfold Py.index. rewrite Hentry.
  unfold py_del.
  destruct (Nat.ltb_spec i (length (encodings (stored st)))); [| lia].
  destruct (Nat.ltb_spec i (length (metadata (stored st)))); [| lia].
  reflexivity.
Qed.

(** X1.  A register request that carries image, name, age and gender,
    whose image decodes and shows exactly one face, and whose age [int()]
    accepts, is answered 200 with the new record's index, which is the
    number of records stored before, and its metadata; the store saved
    is the loaded one with the encoding and the metadata appended. *)
Theorem register_appends_record (now : string) (req : request) (st : Storage)
    (image_data : image_source) (name age gender : Py.value)
    (image_array : ImageArray) (face_encoding : Encoding) (age_int : Z) :
  supplies req st image_data name age gender ->
  decode_image image_data = inr image_array ->
  face_encodings image_array (face_locations image_array) = [face_encoding] ->
  py_int age = inr age_int ->
  let entry := {| name := name; age := age_int; gender := gender;
                  registered_at := Some now |} in
  let answer := fst (serve now (POST_register req) st) in
  snd (serve now (POST_register req) st)
  = Some {| encodings := encodings (stored st) ++ [face_encoding];
            metadata := metadata (stored st) ++ [entry] |}
  /\ status answer = 200
  /\ Py.field "success" (body answer) = Some (Py.Bool true)
  /\ Py.field "person_id" (body answer)
     = Some (Py.Int (Z.of_nat (length (encodings (stored st)))))
  /\ Py.field "metadata" (body answer) = Some (metadata_value entry).
Proof.
  intros Hsup Hdecode Hfound Hint entry answer. subst entry answer.
  rewrite (register_face_success_run now req st image_data name age gender
             image_array face_encoding age_int Hsup Hdecode Hfound Hint).
  cbn [fst snd body status Py.field Py.assoc String.eqb Ascii.eqb Bool.eqb].
  repeat split. rewrite length_app. simpl length.
  do 2 f_equal. lia.
Qed.

(** X2.  On a store whose two lists have the same length, deleting the
    index a successful registration has just returned answers 200 with
    the metadata just registered and brings the stored data back to what
    it was before the registration. *)
Theorem register_then_delete_restores (now later : string) (req : request)
    (st : Storage) (image_data : image_source) (name age gender : Py.value)
    (image_array : ImageArray) (face_encoding : Encoding) (age_int : Z) :
  supplies req st image_data name age gender ->
  decode_image image_data = inr image_array ->
  face_encodings image_array (face_locations image_array) = [face_encoding] ->
  py_int age = inr age_int ->
  aligned (stored st) ->
  let entry := {| name := name; age := age_int; gender := gender;
                  registered_at := Some now |} in
  let person_id := Z.of_nat (length (encodings (stored st))) in
  let st1 := snd (serve now (POST_register req) st) in
  let answer := fst (serve later (DELETE_delete person_id) st1) in
  status answer = 200
  /\ Py.field "deleted" (body answer) = Some (metadata_value entry)
  /\ stored (snd (serve later (DELETE_delete person_id) st1)) = stored st.
Proof.
  intros Hsup Hdecode Hfound Hint Hal entry person_id st1 answer.
  subst answer st1 person_id.
  rewrite (register_face_success_run now req st image_data name age gender
             image_array face_encoding age_int Hsup Hdecode Hfound Hint).
  cbn [snd]. unfold aligned in Hal.
  rewrite (delete_person_success_run later _ _ entry).
  - cbn [fst snd body status stored encodings metadata Py.field Py.assoc
           String.eqb Ascii.eqb Bool.eqb].
    repeat split.
    rewrite delete_last, Hal, delete_last.
    destruct (stored st); reflexivity.
  - cbn [stored metadata]. rewrite Hal.
    apply list_lookup_middle. reflexivity.
  - cbn [stored encodings]. rewrite length_app. simpl. lia.
Qed.

(** X3.  On a store whose two lists have the same length, after a
    successful registration [/list] counts one more person and shows the
    people it showed before, followed by the new one under the index the
    registration returned. *)
Theorem register_then_listed_last (now later : string) (req : request)
    (st : Storage) (image_data : image_source) (name age gender : Py.value)
    (image_array : ImageArray) (face_encoding : Encoding) (age_int : Z) :
  supplies req st image_data name age gender ->
  decode_image image_data = inr image_array ->
  face_encodings image_array (face_locations image_array) = [face_encoding] ->
  py_int age = inr age_int ->
  aligned (stored st) ->
  let entry := {| name := name; age := age_int; gender := gender;
                  registered_at := Some now |} in
  let n := length (encodings (stored st)) in
  let st1 := snd (serve now (POST_register req) st) in
  fst (serve later GET_list st1)
  = Response
      (Py.Dict
         [("count", Py.Int (Z.of_nat (S n)));
          ("people",
            Py.List_ (imap person (metadata (stored st))
                      ++ [person n entry]))]) 200.
Proof.
  intros Hsup Hdecode Hfound Hint Hal entry n st1. subst st1 n.
  rewrite (register_face_success_run now req st image_data name age gender
             image_array face_encoding age_int Hsup Hdecode Hfound Hint).
  cbn [snd]. unfold aligned in Hal.
  unfold serve, try_except, list_people, bind. rewrite load_data_stored.
  cbn [stored metadata]. rewrite return_json. cbn [fst].
  rewrite imap_app, length_app, !length_imap. simpl imap. simpl length.
  unfold compose. rewrite Nat.add_0_r, <- Hal.
  replace (length (encodings (stored st)) + 1)%nat
    with (S (length (encodings (stored st)))) by lia.
  reflexivity.
Qed.

(** X4.  Whatever the request, [/register] leaves every record already
    stored at its index: it never removes or rewrites one. *)
Theorem register_keeps_existing_records (now : string) (req : request)
    (st : Storage) (j : nat) :
  (j < length (encodings (stored st)))%nat ->
  (j < length (metadata (stored st)))%nat ->
  encodings (stored (snd (serve now (POST_register req) st))) !! j
  = encodings (stored st) !! j
  /\ metadata (stored (snd (serve now (POST_register req) st))) !! j
     = metadata (stored st) !! j.
Proof.
  intros He Hm. simpl serve.
  destruct (register_face_storage now req st) as [-> | (e & entry & ->)];
    [split; reflexivity |].
  cbn [stored encodings metadata].
  split; apply lookup_app_l; assumption.
Qed.

End Registration.

Section Requests.
Context `{Runtime}.

(** X5.  A request with no uploaded file named [image] and a JSON object
    without the key [image] is answered 400 "No image provided" by
    [/register] and by [/recognize]; the storage is left as it was. *)
Theorem no_image_provided (now : string) (req : request) (st : Storage)
    (d : list (string * Py.value)) :
  Py.assoc "image" (files req) = None ->
  json req = inr (Py.Dict d) ->
  Py.assoc "image" d = None ->
  serve now (POST_register req) st
  = (Response (error "No image provided") 400, st)
  /\ serve now (POST_recognize req) st
     = (Response (error "No image provided") 400, st).
Proof.
  intros Hfiles Hjson Hkey.
  unfold serve, try_except, register_face, recognize_face, bind,
    request_image.
  rewrite Hfiles, Hjson. cbn [lift ret bind Py.contains].
  unfold bind. cbn [lift ret Py.contains]. unfold Py.has_key.
  rewrite Hkey. split; reflexivity.
Qed.

(** X6.  A JSON register request that holds an image but whose name, age
    or gender is absent or falsy (an empty string, [null], the number 0)
    is answered 400 "Name, age, and gender are required", before the
    image is decoded; the storage is left as it was. *)
Theorem register_missing_field (now : string) (req : request) (st : Storage)
    (d : list (string * Py.value)) (image name age gender : Py.value) :
  Py.assoc "image" (files req) = None ->
  form req = [] ->
  json req = inr (Py.Dict d) ->
  Py.assoc "image" d = Some image ->
  Py.get "name" (Py.Dict d) = inr name ->
  Py.get "age" (Py.Dict d) = inr age ->
  Py.get "gender" (Py.Dict d) = inr gender ->
  forallb Py.truthy [name; age; gender] = false ->
  serve now (POST_register req) st
  = (Response (error "Name, age, and gender are required") 400, st).
Proof.
  intros Hfiles Hform Hjson Himage Hname Hage Hgender Hall.
  unfold serve, try_except, register_face, bind, request_image,
    request_field.
  rewrite Hfiles, Hform, Hjson.
  cbn [lift ret bind Py.contains Py.assoc Py.truthy Py.getitem].
  unfold bind. cbn [lift ret]. unfold Py.has_key. rewrite Himage.
  cbn [lift ret]. rewrite Hname, Hage, Hgender. cbn [lift ret].
  rewrite Hall. reflexivity.
Qed.

(** X7.  A register request that uploads its image as a file, is not
    JSON, and whose form lacks a non-empty name, age or gender is
    answered 500 with the message [request.json] raises, not 400: the
    missing field is looked up in [request.json].  The storage is left
    as it was. *)
Theorem upload_missing_form_field (now : string) (req : request)
    (st : Storage) (f : FileStorage) (e : Py.exn) :
  Py.assoc "image" (files req) = Some f ->
  json req = inl e ->
  forallb Py.truthy
    [form_get req "name"; form_get req "age"; form_get req "gender"]
  = false ->
  serve now (POST_register req) st
  = (Response (error (Py.exn_str e)) 500, st).
Proof.
  intros Hfiles Hjson Hall.
  unfold serve, try_except, register_face, bind, request_image,
    request_field.
  rewrite Hfiles, Hjson. cbn [lift ret raise].
  fold (form_get req "name") (form_get req "age") (form_get req "gender").
  simpl in Hall.
  destruct (Py.truthy (form_get req "name")); [| reflexivity].
  destruct (Py.truthy (form_get req "age")); [| reflexivity].
  destruct (Py.truthy (form_get req "gender")); [discriminate | reflexivity].
Qed.

(** X8.  As soon as the image is uploaded as a file, [/recognize] never
    reads [request.json]: its answer and the storage it leaves are the
    same whatever the JSON body is, or when there is none.  So it is for
    [/register] when, besides, the form holds a non-empty name, age and
    gender. *)
Theorem upload_ignores_json (now : string) (req : request) (st : Storage)
    (f : FileStorage) (j : Result Py.value) :
  Py.assoc "image" (files req) = Some f ->
  serve now (POST_recognize (with_json req j)) st
  = serve now (POST_recognize req) st
  /\ (forallb Py.truthy
        [form_get req "name"; form_get req "age"; form_get req "gender"]
      = true ->
      serve now (POST_register (with_json req j)) st
      = serve now (POST_register req) st).
Proof.
  intros Hfiles. split.
  - unfold serve, try_except, recognize_face, bind, request_image,
      with_json.
    cbn [files form json]. rewrite Hfiles. reflexivity.
  - intros Hall.
    unfold serve, try_except, register_face, bind, request_image,
      request_field, with_json.
    cbn [files form json]. rewrite Hfiles. cbn [ret].
    fold (form_get req "name") (form_get req "age") (form_get req "gender").
    simpl in Hall.
    destruct (Py.truthy (form_get req "name")); [| discriminate].
    destruct (Py.truthy (form_get req "age")); [| discriminate].
    destruct (Py.truthy (form_get req "gender")); [| discriminate].
    reflexivity.
Qed.

(** X9.  When the image of a request does not decode, whatever the
    failure (base64, PIL, a wrong type), [/recognize] and [/register]
    answer 500 with a message that starts with "Failed to decode image: ",
    and the storage is left as it was. *)
Theorem undecodable_image (now : string) (req : request) (st : Storage)
    (image_data : image_source) (e : Py.exn) :
  request_image req st = (Normal image_data, st) ->
  decode_image image_data = inl e ->
  (exists reason : string,
      Py.exn_str e = "Failed to decode image: " ++ reason)
  /\ Py.exn_class_of e = Py.ValueError
  /\ serve now (POST_recognize req) st
     = (Response (error (Py.exn_str e)) 500, st)
  /\ (forall name age gender : Py.value,
        supplies req st image_data name age gender ->
        serve now (POST_register req) st
        = (Response (error (Py.exn_str e)) 500, st)).
Proof.
  intros Himage Hdecode. repeat split.
  - unfold decode_image in Hdecode.
    match type of Hdecode with
    | match ?a with _ => _ end = _ => destruct a as [inner | ?]
    end; [| discriminate].
    injection Hdecode as <-. eexists. reflexivity.
  - unfold decode_image in Hdecode.
    match type of Hdecode with
    | match ?a with _ => _ end = _ => destruct a as [inner | ?]
    end; [| discriminate].
    injection Hdecode as <-. reflexivity.
  - unfold serve, try_except, recognize_face, bind.
    rewrite Himage, Hdecode. reflexivity.
  - intros name age gender (_ & Hname & Hage & Hgender & Hall).
    unfold serve, try_except, register_face, bind.
    rewrite Himage, Hname, Hage, Hgender, Hall, Hdecode. reflexivity.
Qed.

Lemma split_segments_have_no_comma (s : string) :
  Forall (fun segment => Py.has_char "," segment = false) (Py.split "," s).
Proof.
  induction s as [| c s IH]; simpl.
  - repeat constructor.
  - destruct (Ascii.eqb c ",") eqn:E.
    + constructor; [reflexivity | exact IH].
    + destruct (Py.split "," s) as [| h t].
      * repeat constructor. simpl. rewrite E. reflexivity.
      * inversion IH as [| ? ? Hh Ht]; subst.
        constructor; [| exact Ht]. simpl. rewrite E. exact Hh.
Qed.

(** X11.  Whatever the string, lines 35-36 never raise, and the string
    they hand to [base64.b64decode] holds no comma. *)
Theorem base64_payload_has_no_comma (s : string) :
  exists payload : string,
    base64_payload s = inr payload /\ Py.has_char "," payload = false.
Proof.
  unfold base64_payload. destruct (Py.has_char "," s) eqn:Hs.
  - destruct (split_after_first_comma s Hs) as [h E].
    destruct (split_head_tail (after_first_comma s)) as (segment & rest & E').
    pose proof (split_segments_have_no_comma s) as Hall.
    rewrite E, E' in *. inversion Hall as [| ? ? _ Hrest]; subst.
    inversion Hrest as [| ? ? Hsegment _]; subst.
    exists segment. split; [reflexivity | exact Hsegment].
  - exists s. split; [reflexivity | exact Hs].
Qed.

End Requests.

Section Recognition.
Context `{Runtime}.
Import FloatOrder NumpyFacts.

(** The loop over the detected faces, when its body never raises. *)
Lemma for_each_total {A B : Type} (f : A -> Result B) (xs : list A) :
  (forall x, In x xs -> exists y, f x = inr y) ->
  exists ys,
    for_each f xs = inr ys
    /\ length ys = length xs
    /\ (forall k x, xs !! k = Some x ->
          exists y, ys !! k = Some y /\ f x = inr y).
Proof.
  induction xs as [| x xs IH]; intros Hf.
  - exists []. repeat split. intros k x Hk. destruct k; discriminate.
  - destruct (Hf x (or_introl eq_refl)) as [y Hy].
    destruct IH as (ys & Hys & Hlen & Hat).
    { intros x' Hx'. apply Hf. right. exact Hx'. }
    exists (y :: ys). simpl. rewrite Hy, Hys. simpl.
    repeat split; [now rewrite Hlen |].
    intros [| k] x' Hk; simpl in Hk.
    + injection Hk as <-. eauto.
    + apply Hat. exact Hk.
Qed.

Lemma one_result_per_face_aux (t : float) (data : Data)
    (found : list Encoding) :
  aligned data ->
  exists results : list Py.payload,
    for_each (match_face t data) found = inr results
    /\ length results = length found
    /\ (forall k face, found !! k = Some face ->
          exists result,
            results !! k = Some result
            /\ match_face t data face = inr result).
Proof.
  intros Hal. apply for_each_total.
  intros face _. apply match_face_total. exact Hal.
Qed.

(** X12.  On a store whose two lists have the same length, the loop of
    [recognize_face] never raises: it yields one result per detected
    face, in the order of detection, each being what [match_face] gives
    for that face. *)
Theorem one_result_per_face (t : float) (data : Data)
    (found : list Encoding) :
  aligned data ->
  exists results : list Py.payload,
    for_each (match_face t data) found = inr results
    /\ length results = length found
    /\ (forall k face, found !! k = Some face ->
          exists result,
            results !! k = Some result
            /\ match_face t data face = inr result).
Proof. apply one_result_per_face_aux. Qed.

Lemma to_json_list_none (results : list Py.payload) (k : nat)
    (result : Py.payload) :
  results !! k = Some result -> Py.to_json result = None ->
  Py.to_json (Py.PList results) = None.
Proof.
  revert k. induction results as [| r results IH]; intros [| k] Hk Hnone;
    try discriminate; simpl in Hk.
  - injection Hk as ->. cbn [Py.to_json]. rewrite Hnone. reflexivity.
  - specialize (IH k Hk Hnone). cbn [Py.to_json] in IH |- *.
    destruct (Py.to_json r); [| reflexivity].
    match type of IH with
    | option_map _ ?a = None => destruct a; [discriminate | reflexivity]
    end.
Qed.

Lemma to_json_not_recognized_list {A : Type} (xs : list A) :
  Py.to_json (Py.PList (map (fun _ => not_recognized) xs))
  = Some (Py.List_ (map (fun _ => not_recognized_json) xs)).
Proof.
  induction xs as [| x xs IH]; [reflexivity |].
  cbn [Py.to_json map] in IH |- *.
  match type of IH with
  | option_map _ ?a = _ => destruct a as [ys |]; [| discriminate]
  end.
  injection IH as ->. reflexivity.
Qed.

Lemma for_each_not_recognized (t : float) (data : Data)
    (found : list Encoding) :
  forallb
    (fun face =>
       negb (existsb (fun m : bool => m)
               (FaceRecognition.compare_faces (encodings data) face t)))
    found = true ->
  for_each (match_face t data) found
  = inr (map (fun _ => not_recognized) found).
Proof.
  induction found as [| face found IH]; [reflexivity |].
  simpl. intros Hall. apply andb_true_iff in Hall as [Hface Hrest].
  apply negb_true_iff in Hface.
  unfold match_face at 1. rewrite Hface. simpl.
  rewrite (IH Hrest). reflexivity.
Qed.

(** X13.  A recognize request whose image decodes is answered 400 "No
    face detected in image" when no face is detected, and otherwise 404
    "No registered faces in database" when the store holds no encoding;
    the face check comes first.  The storage is left as it was. *)
Theorem recognize_nothing_to_match (now : string) (req : request)
    (st : Storage) (image_data : image_source) (image_array : ImageArray) :
  request_image req st = (Normal image_data, st) ->
  decode_image image_data = inr image_array ->
  face_encodings image_array (face_locations image_array) = []
  \/ encodings (stored st) = [] ->
  serve now (POST_recognize req) st
  = (if Nat.eqb
          (length (face_encodings image_array (face_locations image_array)))
          0
     then Response (error "No face detected in image") 400
     else Response (error "No registered faces in database") 404,
     st).
Proof.
  intros Himage Hdecode Hnone.
  unfold serve, try_except, recognize_face, bind.
  rewrite Himage, Hdecode. cbv beta iota zeta delta [lift ret].
  destruct (Nat.eqb_spec
              (length (face_encodings image_array
                         (face_locations image_array))) 0) as [E | E];
    [reflexivity |].
  destruct Hnone as [Hnone | Hnone]; [rewrite Hnone in E; now destruct E |].
  rewrite load_data_stored, Hnone. reflexivity.
Qed.

(** X14.  When the store is not empty and no stored encoding is within
    tolerance of any detected face, [/recognize] answers 200: the entry
    "recognized: false" when one face was detected, and under [faces]
    the list of one such entry per face when several were. *)
Theorem recognize_nobody (now : string) (req : request) (st : Storage)
    (image_data : image_source) (image_array : ImageArray) :
  request_image req st = (Normal image_data, st) ->
  decode_image image_data = inr image_array ->
  face_encodings image_array (face_locations image_array) <> [] ->
  encodings (stored st) <> [] ->
  forallb
    (fun face =>
       negb (existsb (fun m : bool => m)
               (FaceRecognition.compare_faces
                  (encodings (stored st)) face TOLERANCE)))
    (face_encodings image_array (face_locations image_array)) = true ->
  serve now (POST_recognize req) st
  = (Response
       match face_encodings image_array (face_locations image_array) with
       | [_] => not_recognized_json
       | found =>
           Py.Dict
             [("faces", Py.List_ (map (fun _ => not_recognized_json) found))]
       end 200,
     st).
Proof.
  intros Himage Hdecode Hfound Hstore Hall.
  unfold serve, try_except, recognize_face, bind.
  rewrite Himage, Hdecode. cbv beta iota zeta delta [lift ret].
  destruct (face_encodings image_array (face_locations image_array))
    as [| face found] eqn:E; [congruence |].
  change (Nat.eqb (length (face :: found)) 0) with false. cbv beta iota.
  rewrite load_data_stored.
  destruct (encodings (stored st)) as [| e0 known] eqn:Hknown; [congruence |].
  change (Nat.eqb (length (e0 :: known)) 0) with false. cbv beta iota.
  rewrite <- Hknown in *.
  rewrite (for_each_not_recognized TOLERANCE (stored st) (face :: found) Hall).
  destruct found as [| face' found]; [reflexivity |].
  unfold return_, jsonify.
  pose proof (to_json_not_recognized_list (face :: face' :: found)) as J.
  cbn [Py.to_json] in J |- *.
  match type of J with
  | option_map _ ?a = _ => destruct a as [ys |]; [| discriminate]
  end.
  injection J as ->. reflexivity.
Qed.

(** X15.  On a non-empty store whose two lists have the same length, as
    soon as one detected face has a stored encoding within tolerance and
    no NaN among its distances, [/recognize] answers 500 "Object of type
    int64 is not JSON serializable": the entry of a recognized face
    holds [np.argmin]'s result, which [jsonify] rejects.  The storage is
    left as it was. *)
Theorem recognize_somebody (now : string) (req : request) (st : Storage)
    (image_data : image_source) (image_array : ImageArray) (k : nat)
    (face : Encoding) :
  request_image req st = (Normal image_data, st) ->
  decode_image image_data = inr image_array ->
  aligned (stored st) ->
  face_encodings image_array (face_locations image_array) !! k = Some face ->
  Numpy.has_nan
    (FaceRecognition.face_distance (encodings (stored st)) face) = false ->
  existsb (fun m : bool => m)
    (FaceRecognition.compare_faces (encodings (stored st)) face TOLERANCE)
  = true ->
  serve now (POST_recognize req) st
  = (Response (error "Object of type int64 is not JSON serializable") 500,
     st).
Proof.
  intros Himage Hdecode Hal Hface Hnan Hex.
  (* the face at [k] is recognized *)
  assert (Hrec : exists entry confidence i,
             match_face TOLERANCE (stored st) face
             = inr (recognized entry confidence i)).
  { pose proof (has_nan_false _ Hnan) as Hno.
    destruct (argmin_within_tolerance _ _ _ Hno Hex)
      as (r & e & Hr & He & Hle & _ & _).
    assert (Hlt : (r < length (metadata (stored st)))%nat).
    { unfold aligned in Hal. rewrite <- Hal.
      eapply lookup_lt_Some. exact He. }
    destruct (lookup_lt_is_Some_2 _ _ Hlt) as [entry Hentry].
    exists entry, (1 - row_norm e face)%float, r.
    rewrite (match_face_at_argmin TOLERANCE (stored st) face r e)
      by assumption.
    rewrite (index_lookup _ _ _ Hentry). reflexivity. }
  destruct Hrec as (entry & confidence & i & Hrec).
  destruct (one_result_per_face_aux TOLERANCE (stored st)
              (face_encodings image_array (face_locations image_array)) Hal)
    as (results & Hresults & Hlen & Hat).
  destruct (Hat k face Hface) as (result & Hk & Hresult).
  rewrite Hrec in Hresult. injection Hresult as <-.
  (* the store and the detection are not empty *)
  assert (Hknown : encodings (stored st) <> []).
  { intros E. unfold FaceRecognition.compare_faces,
      FaceRecognition.face_distance in Hex. rewrite E in Hex. discriminate. }
  unfold serve, try_except, recognize_face, bind.
  rewrite Himage, Hdecode. cbv beta iota zeta delta [lift ret].
  destruct (face_encodings image_array (face_locations image_array))
    as [| face0 found] eqn:E; [destruct k; discriminate |].
  change (Nat.eqb (length (face0 :: found)) 0) with false. cbv beta iota.
  rewrite load_data_stored.
  destruct (encodings (stored st)) as [| e0 known] eqn:Eknown; [congruence |].
  change (Nat.eqb (length (e0 :: known)) 0) with false. cbv beta iota.
  rewrite <- Eknown in *. rewrite Hresults.
  assert (Hnone : Py.to_json (recognized entry confidence i) = None)
    by reflexivity.
  destruct results as [| r0 [| r1 results]].
  - destruct k; discriminate.
  - destruct k as [| k]; [| destruct k; discriminate].
    injection Hk as ->. unfold return_, jsonify. rewrite Hnone. reflexivity.
  - pose proof (to_json_list_none _ _ _ Hk Hnone) as J.
    unfold return_, jsonify. cbn [Py.to_json] in J |- *.
    match type of J with
    | option_map _ ?a = None => destruct a; [discriminate | reflexivity]
    end.
Qed.

End Recognition.

Section Storage.
Context `{Runtime}.

(** X16.  The routes [/health], [/recognize] and [/list] never write:
    whatever the request and whatever they answer, the storage is left
    as it was (an absent file stays absent). *)
Theorem read_only_routes (now : string) (c : call) (st : Storage) :
  read_only c = true -> snd (serve now c st) = st.
Proof.
  destruct c; simpl; try discriminate; intros _.
  - reflexivity.
  - apply recognize_face_storage.
  - apply list_people_storage.
Qed.

(** X17.  After [/clear], whatever was stored, [/list] counts nobody and
    every [person_id] is answered 404 by [/delete]. *)
Theorem after_clear (now later : string) (st : Storage) :
  let st1 := snd (serve now POST_clear st) in
  stored st1 = empty_data
  /\ serve later GET_list st1
     = (Response
          (Py.Dict [("count", Py.Int 0); ("people", Py.List_ [])]) 200,
        st1)
  /\ (forall person_id : Z,
        serve later (DELETE_delete person_id) st1
        = (Response (error "Invalid person_id") 404, st1)).
Proof.
  intros st1. repeat split. intros person_id.
  unfold serve, try_except, delete_person, bind.
  rewrite load_data_stored.
  assert (Hguard : (person_id <? 0)%Z
                   || (person_id >=?
                         Z.of_nat (length (encodings (stored st1))))%Z
                   = true).
  { apply orb_true_iff. rewrite Z.ltb_lt, Z.geb_leb, Z.leb_le.
    subst st1. simpl. lia. }
  rewrite Hguard. reflexivity.
Qed.

(** X18.  [/list] answers 200 with as many people as the store holds
    metadata entries, in stored order: the person at position [i] has
    [person_id] [i] and the name, age and gender of the entry at [i],
    and for [registered_at] its time stamp or "Unknown". *)
Theorem list_shows_every_record (now : string) (st : Storage) :
  exists people : list Py.value,
    fst (serve now GET_list st)
    = Response
        (Py.Dict [("count", Py.Int (Z.of_nat (length people)));
                  ("people", Py.List_ people)]) 200
    /\ length people = length (metadata (stored st))
    /\ (forall i entry, metadata (stored st) !! i = Some entry ->
          people !! i
          = Some (Py.Dict
                    [("person_id", Py.Int (Z.of_nat i));
                     ("name", name entry);
                     ("age", Py.Int (age entry));
                     ("gender", gender entry);
                     ("registered_at",
                       Py.Str (default "Unknown" (registered_at entry)))])).
Proof.
  exists (imap person (metadata (stored st))). repeat split.
  - unfold serve, try_except, list_people, bind.
    rewrite load_data_stored. reflexivity.
  - apply length_imap.
  - intros i entry Hi. rewrite list_lookup_imap, Hi. simpl.
    unfold person. destruct (registered_at entry); reflexivity.
Qed.

(** What [request_image] and [request_field] can answer by themselves. *)
Lemma request_image_cases (req : request) (st : Storage) :
  (exists image_data, request_image req st = (Normal image_data, st))
  \/ request_image req st
     = (Returned (Response (error "No image provided") 400), st)
  \/ (exists e, request_image req st = (Raised e, st)).
Proof.
  unfold request_image, bind.
  destruct (Py.assoc "image" (files req)); [left; eexists; reflexivity |].
  destruct (json req) as [e | j]; [right; right; eexists; reflexivity |].
  simpl.
  destruct (Py.contains "image" j) as [e | []]; simpl;
    [right; right; eexists; reflexivity | | right; left; reflexivity].
  destruct (Py.getitem "image" j); simpl;
    [right; right | left]; eexists; reflexivity.
Qed.

Lemma request_field_cases (req : request) (k : string) (st : Storage) :
  (exists v, request_field req k st = (Normal v, st))
  \/ (exists e, request_field req k st = (Raised e, st)).
Proof.
  unfold request_field, bind.
  destruct (Py.truthy _); [left; eexists; reflexivity |].
  destruct (json req) as [e | j]; [right; eexists; reflexivity |]. simpl.
  destruct (Py.get k j); [right | left]; eexists; reflexivity.
Qed.

(** X19.  [/register] commits fully or not at all: either it answers 200
    and the store saved is the loaded one with one encoding and one
    metadata entry appended, or it answers 400 or 500 and the storage is
    left as it was. *)
Theorem register_all_or_nothing (now : string) (req : request)
    (st : Storage) :
  let answer := fst (serve now (POST_register req) st) in
  let st' := snd (serve now (POST_register req) st) in
  (status answer = 200
   /\ exists (e : Encoding) (entry : Metadata),
        st' = Some {| encodings := encodings (stored st) ++ [e];
                      metadata := metadata (stored st) ++ [entry] |})
  \/ ((status answer = 400 \/ status answer = 500) /\ st' = st).
Proof.
  unfold serve, try_except, register_face, bind.
  destruct (request_image_cases req st) as [[image_data ->] | [-> | [e ->]]];
    cbv beta iota; [| right; split; [left | ]; reflexivity
                    | right; split; [right | ]; reflexivity].
  destruct (request_field_cases req "name" st) as [[name ->] | [e ->]];
    cbv beta iota; [| right; split; [right | ]; reflexivity].
  destruct (request_field_cases req "age" st) as [[age ->] | [e ->]];
    cbv beta iota; [| right; split; [right | ]; reflexivity].
  destruct (request_field_cases req "gender" st) as [[gender ->] | [e ->]];
    cbv beta iota; [| right; split; [right | ]; reflexivity].
  destruct (negb _);
    [rewrite return_json; right; split; [left | ]; reflexivity |].
  destruct (decode_image _) as [e | image_array]; simpl;
    [right; split; [right | ]; reflexivity |].
  destruct (Nat.eqb _ 0);
    [rewrite ?return_json; right; split; [left | ]; reflexivity |].
  destruct (Nat.ltb 1 _);
    [rewrite ?return_json; right; split; [left | ]; reflexivity |].
  rewrite load_data_stored.
  destruct (Py.index _ 0) as [e | face_encoding]; simpl;
    [right; split; [right | ]; reflexivity |].
  destruct (py_int _) as [e | age_int]; simpl;
    [right; split; [right | ]; reflexivity |].
  left. split; [reflexivity | eauto].
Qed.

(** X20.  [/delete] commits fully or not at all: either it answers 200
    and the store saved is the loaded one with the element at
    [person_id] removed from both lists, or it answers 404 or 500 and
    the storage is left as it was; the metadata is read before anything
    is removed. *)
Theorem delete_all_or_nothing (now : string) (person_id : Z) (st : Storage) :
  let answer := fst (serve now (DELETE_delete person_id) st) in
  let st' := snd (serve now (DELETE_delete person_id) st) in
  (status answer = 200
   /\ 0 <= person_id
   /\ st' = Some {| encodings :=
                      delete (Z.to_nat person_id) (encodings (stored st));
                    metadata :=
                      delete (Z.to_nat person_id)
                        (metadata (stored st)) |}
   /\ (Z.to_nat person_id < length (encodings (stored st)))%nat
   /\ (Z.to_nat person_id < length (metadata (stored st)))%nat)
  \/ ((status answer = 404 \/ status answer = 500) /\ st' = st).
Proof.
  unfold serve, try_except, delete_person, bind. rewrite load_data_stored.
  destruct (_ || _) eqn:Hguard;
    [rewrite return_json; right; split; [left | ]; reflexivity |].
  apply orb_false_iff in Hguard as [Hneg Hge].
  apply Z.ltb_ge in Hneg. rewrite Z.geb_leb in Hge. apply Z.leb_gt in Hge.
  unfold Py.index.
  destruct (metadata (stored st) !! _) eqn:Hm; simpl;
    [| right; split; [right | ]; reflexivity].
  apply lookup_lt_Some in Hm. unfold py_del.
  destruct (Nat.ltb_spec (Z.to_nat person_id)
              (length (encodings (stored st)))); simpl; [| lia].
  destruct (Nat.ltb_spec (Z.to_nat person_id)
              (length (metadata (stored st)))); simpl; [| lia].
  left. repeat split; assumption.
Qed.

(** X21.  When the store holds fewer metadata entries than encodings, a
    [person_id] the encodings have and the metadata lack is answered 500
    "list index out of range", and nothing is removed. *)
Theorem delete_beyond_metadata (now : string) (person_id : Z)
    (st : Storage) :
  Z.of_nat (length (metadata (stored st))) <= person_id
  < Z.of_nat (length (encodings (stored st))) ->
  serve now (DELETE_delete person_id) st
  = (Response (error "list index out of range") 500, st).
Proof.
  intros [Hlo Hhi].
  unfold serve, try_except, delete_person, bind. rewrite load_data_stored.
  assert (Hguard : (person_id <? 0)%Z
                   || (person_id >=?
                         Z.of_nat (length (encodings (stored st))))%Z
                   = false).
  { apply orb_false_iff. rewrite Z.ltb_ge, Z.geb_leb, Z.leb_gt. lia. }
  rewrite Hguard. unfold Py.index.
  rewrite (lookup_ge_None_2 (metadata (stored st)) (Z.to_nat person_id))
    by lia.
  reflexivity.
Qed.

End Storage.

(** ** The further properties on the stand-in runtime *)
Module MoreExamples.
Import TestDouble Examples.

Definition dee : Metadata :=
  {| name := Py.Str "Ann"; age := 31; gender := Py.Str "F";
     registered_at := Some "t0" |}.

(** A multipart request: the picture as a file, the fields in the form,
    no JSON body. *)
Definition not_json : Py.exn :=
  Py.Exn Py.HTTPException "415 Unsupported Media Type".

Definition upload_request (fields : list (string * string)) : request :=
  {| files := [("image", list_byte_of_string "A")];
     form := fields;
     json := inl not_json |}.

Definition full_form : list (string * string) :=
  [("name", "Ann"); ("age", "31"); ("gender", "F")].

(** X1 on an example: a fourth person joins three. *)
Lemma register_appends_record_witness :
  let call := POST_register (register_request "A" "31") in
  snd (serve "t0" call (Some three))
  = Some {| encodings := encodings three ++ [[65%float]];
            metadata := metadata three ++ [dee] |}
  /\ status (fst (serve "t0" call (Some three))) = 200
  /\ Py.field "success" (body (fst (serve "t0" call (Some three))))
     = Some (Py.Bool true)
  /\ Py.field "person_id" (body (fst (serve "t0" call (Some three))))
     = Some (Py.Int 3)
  /\ Py.field "metadata" (body (fst (serve "t0" call (Some three))))
     = Some (metadata_value dee).
Proof.
  apply (register_appends_record "t0" (register_request "A" "31")
           (Some three) (JsonField (Py.Str "A"))
           (Py.Str "Ann") (Py.Str "31") (Py.Str "F")
           [[65%float]] [65%float] 31);
    [repeat split | reflexivity ..].
Defined.

(** X2 on an example: the fourth person is deleted again. *)
Lemma register_then_delete_restores_witness :
  let st1 :=
    snd (serve "t0" (POST_register (register_request "A" "31"))
           (Some three)) in
  status (fst (serve "t1" (DELETE_delete 3) st1)) = 200
  /\ Py.field "deleted" (body (fst (serve "t1" (DELETE_delete 3) st1)))
     = Some (metadata_value dee)
  /\ stored (snd (serve "t1" (DELETE_delete 3) st1)) = three.
Proof.
  apply (register_then_delete_restores "t0" "t1"
           (register_request "A" "31") (Some three)
           (JsonField (Py.Str "A"))
           (Py.Str "Ann") (Py.Str "31") (Py.Str "F")
           [[65%float]] [65%float] 31);
    [repeat split | reflexivity ..].
Defined.

(** X3 on an example: the fourth person is listed last. *)
Lemma register_then_listed_last_witness :
  let st1 :=
    snd (serve "t0" (POST_register (register_request "A" "31"))
           (Some three)) in
  fst (serve "t1" GET_list st1)
  = Response
      (Py.Dict
         [("count", Py.Int 4);
          ("people",
            Py.List_ (imap person (metadata three) ++ [person 3 dee]))])
      200.
Proof.
  apply (register_then_listed_last "t0" "t1"
           (register_request "A" "31") (Some three)
           (JsonField (Py.Str "A"))
           (Py.Str "Ann") (Py.Str "31") (Py.Str "F")
           [[65%float]] [65%float] 31);
    [repeat split | reflexivity ..].
Defined.

(** X4 on an example: the second of three stays where it is. *)
Lemma register_keeps_existing_records_witness :
  let st1 :=
    snd (serve "t0" (POST_register (register_request "A" "31"))
           (Some three)) in
  encodings (stored st1) !! 1%nat = Some [0.5%float]
  /\ metadata (stored st1) !! 1%nat = Some bob.
Proof.
  apply (register_keeps_existing_records "t0" (register_request "A" "31")
           (Some three) 1); simpl; lia.
Defined.

(** X5 on an example: a JSON body with a name only. *)
Lemma no_image_provided_witness :
  let req := json_request [("name", Py.Str "Ann")] in
  serve "t0" (POST_register req) (Some three)
  = (Response (error "No image provided") 400, Some three)
  /\ serve "t0" (POST_recognize req) (Some three)
     = (Response (error "No image provided") 400, Some three).
Proof.
  apply (no_image_provided "t0" (json_request [("name", Py.Str "Ann")])
           (Some three) [("name", Py.Str "Ann")]); reflexivity.
Defined.

(** X6 on an example: the age is the number 0. *)
Lemma register_missing_field_witness :
  serve "t0"
    (POST_register
       (json_request [("image", Py.Str "A"); ("name", Py.Str "Ann");
                      ("age", Py.Int 0); ("gender", Py.Str "F")]))
    (Some three)
  = (Response (error "Name, age, and gender are required") 400, Some three).
Proof.
  apply (register_missing_field "t0"
           (json_request [("image", Py.Str "A"); ("name", Py.Str "Ann");
                          ("age", Py.Int 0); ("gender", Py.Str "F")])
           (Some three)
           [("image", Py.Str "A"); ("name", Py.Str "Ann");
            ("age", Py.Int 0); ("gender", Py.Str "F")]
           (Py.Str "A") (Py.Str "Ann") (Py.Int 0) (Py.Str "F"));
    reflexivity.
Defined.

(** X7 on an example: an upload whose form has no gender. *)
Lemma upload_missing_form_field_witness :
  serve "t0"
    (POST_register (upload_request [("name", "Ann"); ("age", "31")]))
    (Some three)
  = (Response (error "415 Unsupported Media Type") 500, Some three).
Proof.
  apply (upload_missing_form_field "t0"
           (upload_request [("name", "Ann"); ("age", "31")])
           (Some three) (list_byte_of_string "A") not_json);
    reflexivity.
Defined.

(** X8 on an example: an upload with no form at all for [/recognize],
    and with a full form for [/register], with and without a JSON
    body. *)
Lemma upload_ignores_json_witness :
  let j := inr (Py.Dict [("name", Py.Str "Zed")]) in
  (serve "t0" (POST_recognize (with_json (upload_request []) j))
     (Some three)
   = serve "t0" (POST_recognize (upload_request [])) (Some three))
  /\ (serve "t0" (POST_register (with_json (upload_request full_form) j))
        (Some three)
      = serve "t0" (POST_register (upload_request full_form)) (Some three)).
Proof.
  intros j. split.
  - apply (upload_ignores_json "t0" (upload_request []) (Some three)
             (list_byte_of_string "A") j). reflexivity.
  - apply (upload_ignores_json "t0" (upload_request full_form) (Some three)
             (list_byte_of_string "A") j); reflexivity.
Defined.

(** X9 on an example: the image is a number. *)
Lemma undecodable_image_witness :
  let req := json_request [("image", Py.Int 7); ("name", Py.Str "Ann");
                           ("age", Py.Str "31"); ("gender", Py.Str "F")] in
  let e := Py.Exn Py.ValueError
             ("Failed to decode image: "
              ++ "'int' object has no attribute 'read'") in
  (exists reason : string,
      Py.exn_str e = "Failed to decode image: " ++ reason)
  /\ Py.exn_class_of e = Py.ValueError
  /\ serve "t0" (POST_recognize req) (Some three)
     = (Response (error (Py.exn_str e)) 500, Some three)
  /\ (forall name age gender : Py.value,
        supplies req (Some three) (JsonField (Py.Int 7)) name age gender ->
        serve "t0" (POST_register req) (Some three)
        = (Response (error (Py.exn_str e)) 500, Some three)).
Proof.
  apply (undecodable_image "t0"
           (json_request [("image", Py.Int 7); ("name", Py.Str "Ann");
                          ("age", Py.Str "31"); ("gender", Py.Str "F")])
           (Some three) (JsonField (Py.Int 7))); reflexivity.
Defined.

(** X12 on an example: two faces against three people. *)
Lemma one_result_per_face_witness :
  exists results : list Py.payload,
    for_each (match_face TOLERANCE three) [[0%float]; [9%float]]
    = inr results
    /\ length results = 2%nat
    /\ (forall k face, [[0%float]; [9%float]] !! k = Some face ->
          exists result,
            results !! k = Some result
            /\ match_face TOLERANCE three face = inr result).
Proof.
  apply (one_result_per_face TOLERANCE three [[0%float]; [9%float]]).
  reflexivity.
Defined.

(** X13 on an example: a picture with a face, nobody registered. *)
Lemma recognize_nothing_to_match_witness :
  serve "t0" (POST_recognize (json_request [("image", Py.Str "A")])) None
  = (Response (error "No registered faces in database") 404, None).
Proof.
  apply (recognize_nothing_to_match "t0"
           (json_request [("image", Py.Str "A")]) None
           (JsonField (Py.Str "A")) [[65%float]]);
    [reflexivity | reflexivity | right; reflexivity].
Defined.

(** X14 on an example: two faces, both far from the three people. *)
Lemma recognize_nobody_witness :
  serve "t0" (POST_recognize (json_request [("image", Py.Str "AB")]))
    (Some three)
  = (Response
       (Py.Dict
          [("faces", Py.List_ [not_recognized_json; not_recognized_json])])
       200,
     Some three).
Proof.
  apply (recognize_nobody "t0" (json_request [("image", Py.Str "AB")])
           (Some three) (JsonField (Py.Str "AB"))
           [[65%float]; [66%float]]);
    [reflexivity | reflexivity | discriminate | discriminate | reflexivity].
Defined.

(** A store with somebody at the encoding of the picture "A". *)
Definition with_a : Data :=
  {| encodings := [[0.75%float]; [65%float]]; metadata := [ann; bob] |}.

(** X15 on an example: the face of the picture is that of the second
    person. *)
Lemma recognize_somebody_witness :
  serve "t0" (POST_recognize (json_request [("image", Py.Str "A")]))
    (Some with_a)
  = (Response (error "Object of type int64 is not JSON serializable") 500,
     Some with_a).
Proof.
  apply (recognize_somebody "t0" (json_request [("image", Py.Str "A")])
           (Some with_a) (JsonField (Py.Str "A")) [[65%float]]
           0 [65%float]); reflexivity.
Defined.

(** X16 on an example. *)
Lemma read_only_routes_witness :
  snd (serve "t0" (POST_recognize (json_request [("image", Py.Str "A")]))
         (Some with_a))
  = Some with_a.
Proof.
  apply (read_only_routes "t0"
           (POST_recognize (json_request [("image", Py.Str "A")]))
           (Some with_a)). reflexivity.
Defined.

(** A store with one metadata entry for two encodings. *)
Definition lopsided : Data :=
  {| encodings := [[0.75%float]; [0.5%float]]; metadata := [ann] |}.

(** X21 on an example. *)
Lemma delete_beyond_metadata_witness :
  serve "t0" (DELETE_delete 1) (Some lopsided)
  = (Response (error "list index out of range") 500, Some lopsided).
Proof.
  apply (delete_beyond_metadata "t0" 1 (Some lopsided)). simpl. lia.
Defined.

(** A stored encoding holding NaN, after one at distance 0.25. *)
Definition nan_last : Data :=
  {| encodings := [[0.25%float]; [nan]]; metadata := [ann; bob] |}.

(** X22 on an example: the NaN hides the person at distance 0.25. *)
Lemma match_face_with_nan_witness :
  match_face TOLERANCE nan_last [0%float] = inr not_recognized.
Proof.
  apply (match_face_with_nan TOLERANCE nan_last [0%float]). reflexivity.
Defined.

End MoreExamples.
